(** * Perplexity MCP server: configuration resolver and search pipeline

    A shallow embedding of [src/perplexity_mcp/config.py] and
    [src/perplexity_mcp/server.py], and the properties the specification
    states about them.

    The program is dynamically typed: a configuration file is whatever
    [json.load] returns, and [_merge_configs] copies file values onto the
    settings objects by reflection ([hasattr] / [setattr]) without looking at
    their types.  The embedding keeps this: file and environment values are
    Python values ([value]), the two settings objects written by reflection
    are instance dictionaries, and every operation that Python can refuse
    returns a [res].  Output ([print], the progress sink, the HTTP client)
    is a trace of events next to the result. *)

From Stdlib Require Import ZArith List Bool Ascii String Floats Lia.
From stdpp Require Import base option list gmap strings pretty.

Local Open Scope string_scope.
Set Warnings "-register-all".

(** ** Python values and exceptions *)

Module Py.

(** The values [json.load] and the environment parsers produce.  A [VDict]
    is the item list of a dict in insertion order; Python keeps its keys
    pairwise distinct ([dict_wf]). *)
Inductive value : Type :=
| VNone
| VBool (b : bool)
| VInt (z : Z)
| VFloat (f : float)
| VStr (s : string)
| VList (l : list value)
| VDict (d : list (string * value)).

(** Exceptions.  [TypeError], [AttributeError], [KeyError] and
    [UnicodeEncodeError] are raised by the interpreter; the others carry the
    message they were built with. *)
Inductive exn : Type :=
| TypeError
| AttributeError
| KeyError
| UnicodeEncodeError
| ValueError (m : string)
| UnicodeDecodeError (m : string)
| JSONDecodeError (m : string)
| IOError (m : string)
| TimeoutException (m : string)
| ProxyError (m : string)
| HTTPStatusError (m : string) (status : Z) (text : string)
| TimeoutError (m : string)
| ConnectionError (m : string)
| OtherError (m : string).

Inductive res (A : Type) : Type :=
| Ok (a : A)
| Raise (e : exn).
Arguments Ok {A} a.
Arguments Raise {A} e.

Definition res_bind {A B} (m : res A) (k : A -> res B) : res B :=
  match m with
  | Ok a => k a
  | Raise e => Raise e
  end.

(** *** Strings *)

Definition ascii_lower (a : ascii) : ascii :=
  let n := nat_of_ascii a in
  if (65 <=? n)%nat && (n <=? 90)%nat then ascii_of_nat (n + 32) else a.

(** [str.lower] on the ASCII letters.  The program only tests the result for
    membership in sets of ASCII words, and no character outside ASCII lowers
    to a letter of those words. *)
Fixpoint lower (s : string) : string :=
  match s with
  | "" => ""
  | String a s' => String (ascii_lower a) (lower s')
  end.

(** [p in s] for strings. *)
Fixpoint substring_of (p s : string) : bool :=
  String.prefix p s ||
  match s with
  | "" => false
  | String _ s' => substring_of p s'
  end.

(** [s.startswith(p)] *)
Definition startswith (s p : string) : bool := String.prefix p s.

(** [sep.join(parts)] *)
Fixpoint join (sep : string) (parts : list string) : string :=
  match parts with
  | [] => ""
  | [p] => p
  | p :: ps => p +:+ sep +:+ join sep ps
  end.

Definition str_in (s : string) (words : list string) : bool :=
  bool_decide (s ∈ words).

Definition newline : string := String (ascii_of_nat 10) "".

(** *** Dicts *)

Fixpoint dict_get {V} (k : string) (d : list (string * V)) : option V :=
  match d with
  | [] => None
  | (k', v) :: d' => if String.eqb k k' then Some v else dict_get k d'
  end.

Definition dict_has {V} (k : string) (d : list (string * V)) : bool :=
  match dict_get k d with Some _ => true | None => false end.

(** [d[k] = v]: an existing key keeps its place. *)
Fixpoint dict_set {V} (k : string) (v : V) (d : list (string * V))
  : list (string * V) :=
  match d with
  | [] => [(k, v)]
  | (k', v') :: d' =>
      if String.eqb k k' then (k, v) :: d' else (k', v') :: dict_set k v d'
  end.

Definition dict_wf {V} (d : list (string * V)) : Prop := NoDup (map fst d).

(** *** Operators *)

Definition truthy (v : value) : bool :=
  match v with
  | VNone => false
  | VBool b => b
  | VInt z => negb (z =? 0)%Z
  | VFloat f => negb (PrimFloat.eqb f 0%float)
  | VStr s => negb (String.eqb s "")
  | VList l => match l with [] => false | _ => true end
  | VDict d => match d with [] => false | _ => true end
  end.

(** [a or b] *)
Definition py_or (a b : value) : value := if truthy a then a else b.

Definition is_str (v : value) (s : string) : bool :=
  match v with VStr s' => String.eqb s' s | _ => false end.

(** [key in container], for a string [key]. *)
Definition py_contains (key : string) (container : value) : res bool :=
  match container with
  | VDict d => Ok (dict_has key d)
  | VList l => Ok (existsb (fun x => is_str x key) l)
  | VStr s => Ok (substring_of key s)
  | _ => Raise TypeError
  end.

(** [container[key]], for a string [key]. *)
Definition py_getitem (container : value) (key : string) : res value :=
  match container with
  | VDict d => match dict_get key d with Some v => Ok v | None => Raise KeyError end
  | _ => Raise TypeError
  end.

(** [v.items()] *)
Definition py_items (v : value) : res (list (string * value)) :=
  match v with
  | VDict d => Ok d
  | _ => Raise AttributeError
  end.

(** [v.get(key, default)] *)
Definition py_get (v : value) (key : string) (default : value) : res value :=
  match v with
  | VDict d => Ok (match dict_get key d with Some x => x | None => default end)
  | _ => Raise AttributeError
  end.

(** Numbers.  [bool] is a subclass of [int]. *)
Inductive num : Type :=
| NInt (z : Z)
| NFloat (f : float).

Definition as_num (v : value) : option num :=
  match v with
  | VBool b => Some (NInt (if b then 1 else 0))
  | VInt z => Some (NInt z)
  | VFloat f => Some (NFloat f)
  | _ => None
  end.

(** The integers the program compares with (0, 1 and 65535) are floats
    exactly, so a mixed comparison is the comparison of floats. *)
Definition Z_to_float (z : Z) : float :=
  if (z <? 0)%Z then PrimFloat.opp (PrimFloat.of_uint63 (Uint63.of_Z (- z)))
  else PrimFloat.of_uint63 (Uint63.of_Z z).

Definition num_le (a b : num) : bool :=
  match a, b with
  | NInt x, NInt y => (x <=? y)%Z
  | NInt x, NFloat g => PrimFloat.leb (Z_to_float x) g
  | NFloat f, NInt y => PrimFloat.leb f (Z_to_float y)
  | NFloat f, NFloat g => PrimFloat.leb f g
  end.

Definition num_lt (a b : num) : bool :=
  match a, b with
  | NInt x, NInt y => (x <? y)%Z
  | NInt x, NFloat g => PrimFloat.ltb (Z_to_float x) g
  | NFloat f, NInt y => PrimFloat.ltb f (Z_to_float y)
  | NFloat f, NFloat g => PrimFloat.ltb f g
  end.

(** [a <= b] and [a < b]: a [TypeError] unless both are numbers (the
    program never compares two strings). *)
Definition py_le (a b : value) : res bool :=
  match as_num a, as_num b with
  | Some x, Some y => Ok (num_le x y)
  | _, _ => Raise TypeError
  end.

Definition py_lt (a b : value) : res bool :=
  match as_num a, as_num b with
  | Some x, Some y => Ok (num_lt x y)
  | _, _ => Raise TypeError
  end.

(** *** The parts of the Python runtime the program calls but does not
    define.  Theorems hold for every runtime. *)

(** What the program reads of a [urllib.parse.ParseResult].  [port] raises
    [ValueError] when the port is not a number. *)
Record ParseResult : Type := {
  scheme : string;
  netloc : string;
  hostname : option string;
  port : res (option Z);
  username : option string;
}.

Class Runtime : Type := {
  (** [int(s)]; [None] stands for [ValueError]. *)
  py_int : string -> option Z;
  (** [float(s)]; [None] stands for [ValueError]. *)
  py_float : string -> option float;
  (** [format(v)] of a value that is not a [str]. *)
  py_format : value -> string;
  (** [str(e)] of an exception raised by the interpreter. *)
  exn_text : exn -> string;
  (** [urllib.parse.urlparse] *)
  urlparse : string -> res ParseResult;
}.

(** [f"{v}"] *)
Definition fstr `{Runtime} (v : value) : string :=
  match v with
  | VStr s => s
  | _ => py_format v
  end.

(** [str(e)] *)
Definition str_exn `{Runtime} (e : exn) : string :=
  match e with
  | TypeError | AttributeError | KeyError | UnicodeEncodeError => exn_text e
  | ValueError m | UnicodeDecodeError m | JSONDecodeError m | IOError m
  | TimeoutException m | ProxyError m | HTTPStatusError m _ _
  | TimeoutError m | ConnectionError m | OtherError m => m
  end.

End Py.
Export Py.

(** ** Effects: a result next to the trace of what was printed, logged to
    the progress sink, written, and done with the HTTP client *)

Module Eff.

(** The keyword arguments [create_http_client] gives [httpx.AsyncClient]. *)
Record Client : Type := {
  client_timeout : value;
  client_follow_redirects : bool;
  client_proxy : option string;
}.

(** The arguments of [client.post]. *)
Record Request : Type := {
  req_url : value;
  req_headers : list (string * string);
  req_json : value;
}.

Inductive level : Type := Info | Warning | Error | Debug.

Inductive event : Type :=
| Stdout (line : string)
| CtxLog (l : level) (text : string)
| MkdirParents (of_file : string)
| FileWrite (file : string) (content : value)
| FileTruncated (file : string)
| NewClient (c : Client)
| Post (c : Client) (r : Request)
| CloseClient (c : Client).

Definition M (A : Type) : Type := (list event * res A)%type.

Definition ret {A} (a : A) : M A := ([], Ok a).
Definition raise {A} (e : exn) : M A := ([], Raise e).
Definition emit (e : event) : M unit := ([e], Ok tt).
Definition lift {A} (r : res A) : M A := ([], r).

Definition bind {A B} (m : M A) (k : A -> M B) : M B :=
  match m with
  | (t, Ok a) => let '(t', r) := k a in ((t ++ t')%list, r)
  | (t, Raise e) => (t, Raise e)
  end.

(** [try: m  except e: h e] *)
Definition catch {A} (m : M A) (h : exn -> M A) : M A :=
  match m with
  | (t, Raise e) => let '(t', r) := h e in ((t ++ t')%list, r)
  | (t, Ok a) => (t, Ok a)
  end.

Definition when (b : bool) (m : M unit) : M unit := if b then m else ret tt.

Definition trace {A} (m : M A) : list event := fst m.
Definition result {A} (m : M A) : res A := snd m.

End Eff.
Export Eff.

Declare Scope eff_scope.
Delimit Scope eff_scope with eff.
Notation "x <- m ;; k" := (Eff.bind m (fun x => k))
  (at level 100, m at next level, right associativity) : eff_scope.
Notation "m ;; k" := (Eff.bind m (fun _ => k))
  (at level 100, right associativity) : eff_scope.
Notation "x <~ m ;; k" := (Py.res_bind m (fun x => k))
  (at level 100, m at next level, right associativity) : eff_scope.
Local Open Scope eff_scope.

(** ** config.py *)

Module Config.

(** *** ProxySettings *)

Record ProxySettings : Type := {
  http_proxy : string;
  https_proxy : string;
  all_proxy : string;
  no_proxy : string;
}.

(** [ProxySettings()] *)
Definition ProxySettings_new : ProxySettings :=
  {| http_proxy := ""; https_proxy := ""; all_proxy := ""; no_proxy := "" |}.

Definition nonempty (s : string) : bool := negb (String.eqb s "").

Definition get_proxy_config (self : ProxySettings) : list (string * string) :=
  let proxies := [] in
  let proxies :=
    if nonempty self.(http_proxy) then dict_set "http://" self.(http_proxy) proxies
    else if nonempty self.(all_proxy) then dict_set "http://" self.(all_proxy) proxies
    else proxies in
  let proxies :=
    if nonempty self.(https_proxy) then dict_set "https://" self.(https_proxy) proxies
    else if nonempty self.(all_proxy) then dict_set "https://" self.(all_proxy) proxies
    else proxies in
  proxies.

Definition get_httpx_proxy (self : ProxySettings) : option string :=
  let proxies := get_proxy_config self in
  match proxies with
  | [] => None
  | _ =>
      if dict_has "https://" proxies then dict_get "https://" proxies
      else if dict_has "http://" proxies then dict_get "http://" proxies
      else None
  end.

Section WithRuntime.
Context `{Runtime}.

Definition validate_proxy_url (proxy_url : string) : bool :=
  match urlparse proxy_url with
  | Ok parsed => nonempty parsed.(scheme) && nonempty parsed.(netloc)
  | Raise _ => false
  end.

Definition get_proxy_info (proxy_url : string) : list (string * string) :=
  let attempt : res (list (string * string)) :=
    parsed <~ urlparse proxy_url ;;
    p <~ parsed.(port) ;;
    let info := [
      ("scheme", parsed.(scheme));
      ("host", match parsed.(hostname) with
               | Some h => if nonempty h then h else "unknown"
               | None => "unknown"
               end);
      ("port", match p with
               | Some n => if (n =? 0)%Z then "default" else pretty n
               | None => "default"
               end)
    ] in
    Ok (match parsed.(username) with
        | Some u => if nonempty u then dict_set "auth" (u +:+ ":***") info else info
        | None => info
        end) in
  match attempt with
  | Ok info => info
  | Raise _ => [("error", "invalid_proxy_url")]
  end.

End WithRuntime.

(** *** PerplexitySettings and ServerSettings

    [_merge_configs] writes these two by [hasattr] / [setattr], so an
    instance is its [__dict__]; a field that is not in it is read from the
    class, where the dataclass keeps the defaults. *)

Record dataclass : Type := {
  dc_fields : list (string * value);
}.

Abbreviation instance := (gmap string value).

Definition PerplexitySettings : dataclass := {|
  dc_fields := [
    ("api_key", VStr "");
    ("api_url", VStr "https://api.perplexity.ai/chat/completions");
    ("model", VStr "sonar");
    ("model_prefix", VStr "");
    ("system_message", VStr "Be precise and concise.");
    ("timeout", VFloat 30%float);
    ("max_retries", VInt 3);
    ("retry_delay", VFloat 1%float)
  ]
|}.

Definition ServerSettings : dataclass := {|
  dc_fields := [
    ("host", VStr "127.0.0.1");
    ("port", VInt 8000);
    ("path", VStr "/mcp");
    ("log_level", VStr "info");
    ("enable_cors", VBool true);
    ("max_request_size", VInt (1024 * 1024))
  ]
|}.

(** [cls()]: the generated [__init__] assigns every field its default. *)
Definition new (cls : dataclass) : instance := list_to_map cls.(dc_fields).

(** What every instance of a dataclass inherits besides its fields
    (CPython 3.11). *)
Definition object_attrs : list string := [
  "__annotations__"; "__class__"; "__dataclass_fields__";
  "__dataclass_params__"; "__delattr__"; "__dict__"; "__dir__"; "__doc__";
  "__eq__"; "__format__"; "__ge__"; "__getattribute__"; "__getstate__";
  "__gt__"; "__hash__"; "__init__"; "__init_subclass__"; "__le__"; "__lt__";
  "__match_args__"; "__module__"; "__ne__"; "__new__"; "__reduce__";
  "__reduce_ex__"; "__repr__"; "__setattr__"; "__sizeof__"; "__str__";
  "__subclasshook__"; "__weakref__"
].

Definition hasattr (cls : dataclass) (o : instance) (name : string) : bool :=
  bool_decide (is_Some (o !! name))
  || dict_has name cls.(dc_fields)
  || str_in name object_attrs.

(** [setattr(o, name, v)].  [__class__], [__dict__] and [__weakref__] are
    data descriptors of the class: the first takes only a class, the second
    only a dict, which then replaces the attributes of the instance, and the
    third cannot be written. *)
Definition setattr (o : instance) (name : string) (v : value) : res instance :=
  if String.eqb name "__class__" then Raise TypeError
  else if String.eqb name "__dict__" then
    match v with
    | VDict d => Ok (list_to_map d)
    | _ => Raise TypeError
    end
  else if String.eqb name "__weakref__" then Raise AttributeError
  else Ok (<[name := v]> o).

(** [o.name], for a declared field [name]. *)
Definition attr (cls : dataclass) (o : instance) (name : string) : value :=
  match o !! name with
  | Some v => v
  | None => default VNone (dict_get name cls.(dc_fields))
  end.

(** [dataclasses.asdict(o)].  It finds the fields through
    [o.__dataclass_fields__], which an instance attribute of that name
    hides; no value of a configuration file is a field descriptor. *)
Definition asdict (cls : dataclass) (o : instance) : res value :=
  match o !! "__dataclass_fields__" with
  | None => Ok (VDict (map (fun kv => (fst kv, attr cls o (fst kv))) cls.(dc_fields)))
  | Some (VDict []) => Ok (VDict [])
  | Some _ => Raise AttributeError
  end.

(** *** AppConfig *)

Record AppConfig : Type := {
  perplexity : instance;
  server : instance;
  proxy : ProxySettings;
  debug : value;
  config_version : string;
}.

(** [AppConfig(perplexity=PerplexitySettings(), server=ServerSettings(),
    proxy=ProxySettings())] *)
Definition AppConfig_new : AppConfig := {|
  perplexity := new PerplexitySettings;
  server := new ServerSettings;
  proxy := ProxySettings_new;
  debug := VBool false;
  config_version := "1.0";
|}.

Definition set_perplexity (p : instance) (c : AppConfig) : AppConfig :=
  {| perplexity := p; server := c.(server); proxy := c.(proxy);
     debug := c.(debug); config_version := c.(config_version) |}.

Definition set_server (s : instance) (c : AppConfig) : AppConfig :=
  {| perplexity := c.(perplexity); server := s; proxy := c.(proxy);
     debug := c.(debug); config_version := c.(config_version) |}.

Definition set_debug (d : value) (c : AppConfig) : AppConfig :=
  {| perplexity := c.(perplexity); server := c.(server); proxy := c.(proxy);
     debug := d; config_version := c.(config_version) |}.

Definition set_proxy (x : ProxySettings) (c : AppConfig) : AppConfig :=
  {| perplexity := c.(perplexity); server := c.(server); proxy := x;
     debug := c.(debug); config_version := c.(config_version) |}.

(** *** ConfigManager *)

Record ConfigManager : Type := {
  config_file : string;
  _config : option AppConfig;
}.

(** [str(Path(p))] on POSIX.  [pathlib] keeps a path as its root and its
    components: a run of slashes separates once, a component [.] and an
    empty one are dropped, two leading slashes are kept and more than two
    are one; the path without components and root is [.]. *)
Fixpoint split (sep : ascii) (s : string) : list string :=
  match s with
  | "" => [""]
  | String a s' =>
      if Ascii.eqb a sep then "" :: split sep s'
      else match split sep s' with
           | p :: ps => String a p :: ps
           | [] => [String a ""]
           end
  end.

Fixpoint lstrip (sep : ascii) (s : string) : string :=
  match s with
  | "" => ""
  | String a s' => if Ascii.eqb a sep then lstrip sep s' else s
  end.

Definition Path (p : string) : string :=
  let stripped := lstrip "/" p in
  let slashes := (String.length p - String.length stripped)%nat in
  let root := if (slashes =? 0)%nat then ""
              else if (slashes =? 2)%nat then "//" else "/" in
  let parts := List.filter (fun x => nonempty x && negb (String.eqb x "."))
                           (split "/" stripped) in
  if nonempty root then root +:+ join "/" parts
  else match parts with
       | [] => "."
       | _ => join "/" parts
       end.

(** [ConfigManager(config_file)]:
    [self.config_file = Path(config_file or "config.json")] *)
Definition ConfigManager_new (file : option string) : ConfigManager :=
  {| config_file := Path (match file with
                          | Some f => if nonempty f then f else "config.json"
                          | None => "config.json"
                          end);
     _config := None |}.

(** [os.environ] *)
Abbreviation environ := (gmap string string).

(** [os.getenv(name)] and [os.getenv(name, default)] *)
Definition getenv (env : environ) (name : string) : option string := env !! name.
Definition getenv_or (env : environ) (name default : string) : string :=
  match env !! name with Some s => s | None => default end.

(** What reading [config_file] gives: it does not exist, or [open] or
    [json.load] raises, or [json.load] returns a value; or the test
    [config_file.exists()] itself raises, as it does when a directory on the
    way may not be searched. *)
Inductive file_read : Type :=
| NoFile
| ReadRaises (e : exn)
| Parsed (v : value)
| ExistsRaises (e : exn).

Definition of_int (o : option Z) : value :=
  match o with Some z => VInt z | None => VNone end.
Definition of_float (o : option float) : value :=
  match o with Some f => VFloat f | None => VNone end.
Definition of_bool (o : option bool) : value :=
  match o with Some b => VBool b | None => VNone end.

(** [value is not None and value != ""] *)
Definition is_set (v : value) : bool :=
  match v with
  | VNone => false
  | VStr s => nonempty s
  | _ => true
  end.

(** [for key, value in entries.items(): if keep(value): d[key] = value] *)
Definition collect (keep : value -> bool) (entries : list (string * value))
  : list (string * value) :=
  fold_left (fun d kv => if keep (snd kv) then dict_set (fst kv) (snd kv) d else d)
            entries [].

(** [for x in xs: a = f(a, x)], stopping at the first exception. *)
Fixpoint fold_res {A B} (f : A -> B -> res A) (xs : list B) (a : A) : res A :=
  match xs with
  | [] => Ok a
  | x :: xs' => a' <~ f a x ;; fold_res f xs' a'
  end.

(** [if hasattr(o, key): setattr(o, key, value)] *)
Definition apply_item (cls : dataclass) (o : instance) (item : string * value)
  : res instance :=
  if hasattr cls o (fst item) then setattr o (fst item) (snd item) else Ok o.

(** [for key, value in section.items():
       if hasattr(o, key): setattr(o, key, value)] *)
Definition apply_section (cls : dataclass) (o : instance) (section : value)
  : res instance :=
  items <~ py_items section ;;
  fold_res (apply_item cls) items o.

(** [if name in source:
       for key, value in source[name].items(): ...]
    for the settings object [o] of class [cls]. *)
Definition apply_named (cls : dataclass) (name : string) (source : value)
    (o : instance) : res instance :=
  has <~ py_contains name source ;;
  if has then
    section <~ py_getitem source name ;;
    apply_section cls o section
  else Ok o.

(** The three steps [_merge_configs] takes for [file_config] and then again
    for [env_config]. *)
Definition apply_source (source : value) (config : AppConfig) : res AppConfig :=
  p <~ apply_named PerplexitySettings "perplexity" source config.(perplexity) ;;
  let config := set_perplexity p config in
  s <~ apply_named ServerSettings "server" source config.(server) ;;
  let config := set_server s config in
  has_d <~ py_contains "debug" source ;;
  if has_d then
    d <~ py_getitem source "debug" ;;
    Ok (set_debug d config)
  else Ok config.

Definition _merge_configs (file_config env_config : value) : res AppConfig :=
  let config := AppConfig_new in
  config <~ apply_source file_config config ;;
  apply_source env_config config.

(** [if errors: print(header); for error in errors: print(error)] *)
Definition report (errors : list string) : M unit :=
  match errors with
  | [] => ret tt
  | _ =>
      emit (Stdout "⚠️  配置验证警告:") ;;
      fold_right (fun error k => emit (Stdout ("   - " +:+ error)) ;; k)
                 (ret tt) errors
  end.

Definition _validate_config (config : AppConfig) : M unit :=
  let errors : list string := [] in
  let errors :=
    if negb (truthy (attr PerplexitySettings config.(perplexity) "api_key"))
    then (errors ++ ["Perplexity API 密钥未设置"])%list else errors in
  bad <- lift (py_le (attr PerplexitySettings config.(perplexity) "timeout") (VInt 0)) ;;
  let errors :=
    if bad then (errors ++ ["超时时间必须大于 0"])%list else errors in
  bad <- lift (py_lt (attr PerplexitySettings config.(perplexity) "max_retries") (VInt 0)) ;;
  let errors :=
    if bad then (errors ++ ["最大重试次数不能为负数"])%list else errors in
  lo <- lift (py_le (VInt 1) (attr ServerSettings config.(server) "port")) ;;
  ok <- (if lo
         then lift (py_le (attr ServerSettings config.(server) "port") (VInt 65535))
         else ret false) ;;
  let errors :=
    if negb ok then (errors ++ ["端口号必须在 1-65535 范围内"])%list else errors in
  bad <- lift (py_le (attr ServerSettings config.(server) "max_request_size") (VInt 0)) ;;
  let errors :=
    if bad then (errors ++ ["最大请求大小必须大于 0"])%list else errors in
  report errors.

Section WithRuntime.
Context `{Runtime}.

Definition _load_from_file (fs : file_read) : M value :=
  match fs with
  | NoFile => ret (VDict [])
  | Parsed v => ret v
  | ReadRaises e =>
      match e with
      | JSONDecodeError _ | IOError _ =>
          emit (Stdout ("⚠️  警告: 配置文件加载失败: " +:+ str_exn e)) ;;
          ret (VDict [])
      | _ => raise e
      end
  | ExistsRaises e =>
      (* [if not self.config_file.exists()] is before the [try] *)
      raise e
  end.

Definition _parse_int (value : option string) : option Z :=
  match value with
  | None => None
  | Some s => if String.eqb s "" then None else py_int s
  end.

Definition _parse_float (value : option string) : option float :=
  match value with
  | None => None
  | Some s => if String.eqb s "" then None else py_float s
  end.

Definition _parse_bool (value : option string) : option bool :=
  match value with
  | None => None
  | Some s =>
      if String.eqb s "" then None
      else Some (str_in (lower s) ["true"; "1"; "yes"; "on"])
  end.

(** [os.getenv(upper) or os.getenv(lower, "")] *)
Definition getenv_either (env : environ) (upper lower : string) : string :=
  match getenv env upper with
  | Some s => if nonempty s then s else getenv_or env lower ""
  | None => getenv_or env lower ""
  end.

Definition perplexity_env (env : environ) : list (string * value) := [
  ("api_key", VStr (getenv_or env "PERPLEXITY_API_KEY" ""));
  ("api_url", VStr (getenv_or env "PERPLEXITY_API_URL" ""));
  ("model", VStr (getenv_or env "PERPLEXITY_MODEL" ""));
  ("model_prefix", VStr (getenv_or env "PERPLEXITY_MODEL_PREFIX" ""));
  ("system_message", VStr (getenv_or env "PERPLEXITY_SYSTEM_MESSAGE" ""));
  ("timeout", of_float (_parse_float (getenv env "PERPLEXITY_TIMEOUT")));
  ("max_retries", of_int (_parse_int (getenv env "PERPLEXITY_MAX_RETRIES")));
  ("retry_delay", of_float (_parse_float (getenv env "PERPLEXITY_RETRY_DELAY")))
].

Definition server_env (env : environ) : list (string * value) := [
  ("host", VStr (getenv_or env "MCP_HOST" ""));
  ("port", of_int (_parse_int (getenv env "MCP_PORT")));
  ("path", VStr (getenv_or env "MCP_PATH" ""));
  ("log_level", VStr (getenv_or env "LOG_LEVEL" ""));
  ("enable_cors", of_bool (_parse_bool (getenv env "ENABLE_CORS")));
  ("max_request_size", of_int (_parse_int (getenv env "MAX_REQUEST_SIZE")))
].

Definition proxy_env (env : environ) : list (string * value) := [
  ("http_proxy", VStr (getenv_either env "HTTP_PROXY" "http_proxy"));
  ("https_proxy", VStr (getenv_either env "HTTPS_PROXY" "https_proxy"));
  ("all_proxy", VStr (getenv_either env "ALL_PROXY" "all_proxy"));
  ("no_proxy", VStr (getenv_either env "NO_PROXY" "no_proxy"))
].

Definition _load_from_env (env : environ) : value :=
  VDict [
    ("perplexity", VDict (collect is_set (perplexity_env env)));
    ("server", VDict (collect is_set (server_env env)));
    ("proxy", VDict (collect truthy (proxy_env env)));
    ("debug", VBool (str_in (lower (getenv_or env "DEBUG" "")) ["true"; "1"; "yes"]))
  ].

Definition load_config (self : ConfigManager) (fs : file_read) (env : environ)
  : M (ConfigManager * AppConfig) :=
  file_config <- _load_from_file fs ;;
  let env_config := _load_from_env env in
  config <- lift (_merge_configs file_config env_config) ;;
  _validate_config config ;;
  ret ({| config_file := self.(config_file); _config := Some config |}, config).

(** A string is UTF-8; a lone surrogate, which UTF-8 has no place for, is
    the three bytes 237, 160..191, 128..191 that its code point would
    give.  [json.load] reads one from an escape such as [\ud800], and
    [os.environ] gives one for a byte that is not UTF-8. *)
Fixpoint has_surrogate (s : string) : bool :=
  match s with
  | String a (String b _ as s') =>
      ((nat_of_ascii a =? 237)%nat
       && (160 <=? nat_of_ascii b)%nat && (nat_of_ascii b <=? 191)%nat)
      || has_surrogate s'
  | _ => false
  end.

(** [int.__repr__] refuses an integer of more than 4300 digits
    (CPython 3.11). *)
Definition int_limit_message : string :=
  "Exceeds the limit (4300 digits) for integer string conversion; use sys.set_int_max_str_digits() to increase the limit".

(** [json.dump(v, f, indent=2, ensure_ascii=False)] on a file opened with
    [encoding='utf-8']: the exception of the first chunk, in the order of
    the document, that cannot be produced or encoded, if there is one.  The
    chunks before it are written. *)
Fixpoint json_dump_raises (v : value) : option exn :=
  match v with
  | VNone | VBool _ | VFloat _ => None
  | VInt z =>
      if (10 ^ 4300 <=? Z.abs z)%Z then Some (ValueError int_limit_message)
      else None
  | VStr s => if has_surrogate s then Some UnicodeEncodeError else None
  | VList l =>
      (fix items (l : list value) : option exn :=
         match l with
         | [] => None
         | x :: l' =>
             match json_dump_raises x with
             | Some e => Some e
             | None => items l'
             end
         end) l
  | VDict d =>
      (fix items (d : list (string * value)) : option exn :=
         match d with
         | [] => None
         | (k, x) :: d' =>
             if has_surrogate k then Some UnicodeEncodeError
             else match json_dump_raises x with
                  | Some e => Some e
                  | None => items d'
                  end
         end) d
  end.

(** [mkdir(parents=True, exist_ok=True)], and [open(config_file, 'w')] with
    the writes of [json.dump] and the closing of the file, as the file
    system decides them for this call: [Some m] is the [IOError] they
    raise.  The errors of [json.dump] that depend on the data are
    [json_dump_raises]. *)
Record save_io : Type := {
  mkdir_fails : option string;
  write_fails : option string;
}.

Definition save_config (self : ConfigManager) (config : option AppConfig)
    (io : save_io) : M unit :=
  let config := match config with Some c => Some c | None => self.(_config) end in
  match config with
  | None => raise (ValueError "没有可保存的配置")
  | Some config =>
      p <- lift (asdict PerplexitySettings config.(perplexity)) ;;
      s <- lift (asdict ServerSettings config.(server)) ;;
      let config_dict := VDict [
        ("perplexity", p);
        ("server", s);
        ("debug", config.(debug));
        ("config_version", VStr config.(config_version))
      ] in
      emit (MkdirParents self.(config_file)) ;;
      match io.(mkdir_fails) with
      | Some m => raise (IOError m)
      | None =>
          match io.(write_fails) with
          | Some m =>
              emit (Stdout ("❌ 配置保存失败: " +:+ m)) ;;
              raise (IOError m)
          | None =>
              match json_dump_raises config_dict with
              | Some e =>
                  (* not an [IOError]: the handler lets it pass, and the
                     file is left with the text before the chunk *)
                  emit (FileTruncated self.(config_file)) ;;
                  raise e
              | None =>
                  emit (FileWrite self.(config_file) config_dict) ;;
                  emit (Stdout ("✅ 配置已保存到: " +:+ self.(config_file)))
              end
          end
      end
  end.

End WithRuntime.

End Config.
Export Config.

(** ** server.py *)

Module Server.

(** What [httpx] does with a client: [connect] is the exception the
    constructor [httpx.AsyncClient] raises for its arguments, if any, and
    [post] the response to a request or the exception [client.post]
    raises. *)
Record Response : Type := {
  status_code : Z;
  text : string;
  json : res value;
}.

Record Transport : Type := {
  connect : Client -> option exn;
  post : Client -> Request -> res Response;
}.

(** The characters of a UTF-8 string: a continuation byte (10xxxxxx)
    belongs to the character before it. *)
Definition is_continuation (a : ascii) : bool :=
  let n := nat_of_ascii a in (128 <=? n)%nat && (n <? 192)%nat.

Fixpoint chars (s : string) : list string :=
  match s with
  | "" => []
  | String a s' =>
      match chars s' with
      | c :: cs =>
          match c with
          | String b _ =>
              if is_continuation b then String a c :: cs
              else String a "" :: c :: cs
          | "" => String a "" :: c :: cs
          end
      | [] => [String a ""]
      end
  end.

(** [for x in v] *)
Definition py_iter (v : value) : res (list value) :=
  match v with
  | VList l => Ok l
  | VDict d => Ok (map (fun kv => VStr (fst kv)) d)
  | VStr s => Ok (map VStr (chars s))
  | _ => Raise TypeError
  end.

(** [len(v)] *)
Definition py_len (v : value) : res nat :=
  match v with
  | VList l => Ok (length l)
  | VDict d => Ok (length d)
  | VStr s => Ok (length (chars s))
  | _ => Raise TypeError
  end.

(** [sep.join(parts)], which takes only strings. *)
Fixpoint strings_of (parts : list value) : res (list string) :=
  match parts with
  | [] => Ok []
  | VStr s :: parts' => ss <~ strings_of parts' ;; Ok (s :: ss)
  | _ :: _ => Raise TypeError
  end.

Definition py_join (sep : string) (parts : list value) : res string :=
  ss <~ strings_of parts ;; Ok (join sep ss).

(** [async with client: body]: the client is closed however [body] ends. *)
Definition scoped {A} (client : Client) (body : M A) : M A :=
  ((trace body ++ [CloseClient client])%list, result body).

Definition fopt (o : option string) : string :=
  match o with Some s => s | None => "None" end.

Section WithConfig.
Context `{Runtime}.

(** The module global [config = get_config()]. *)
Variable config : AppConfig.

Definition parse_proxy_config : list (string * string) :=
  get_proxy_config config.(proxy).

Definition validate_proxy_url (proxy_url : string) : bool :=
  Config.validate_proxy_url proxy_url.

Definition get_proxy_info (proxy_url : string) : list (string * string) :=
  Config.get_proxy_info proxy_url.

Definition create_http_client (tr : Transport) : M Client :=
  let timeout := attr PerplexitySettings config.(perplexity) "timeout" in
  let proxy_url := get_httpx_proxy config.(proxy) in
  let is_given := match proxy_url with Some u => nonempty u | None => false end in
  let url := match proxy_url with Some u => u | None => "" end in
  client_proxy <-
    (if is_given && validate_proxy_url url then
       let proxy_info := get_proxy_info url in
       emit (Stdout "🌐 使用代理配置:") ;;
       emit (Stdout ("   代理: " +:+ fopt (dict_get "scheme" proxy_info) +:+ "://"
                     +:+ fopt (dict_get "host" proxy_info) +:+ ":"
                     +:+ fopt (dict_get "port" proxy_info))) ;;
       match dict_get "auth" proxy_info with
       | Some auth => emit (Stdout ("   认证: " +:+ auth))
       | None => ret tt
       end ;;
       ret (Some url)
     else if is_given then
       emit (Stdout ("⚠️  警告: 代理 URL 格式无效: " +:+ url)) ;;
       emit (Stdout "🔗 直接连接（代理配置无效）") ;;
       ret None
     else
       emit (Stdout "🔗 直接连接（未配置代理）") ;;
       ret None) ;;
  let client := {| client_timeout := timeout;
                   client_follow_redirects := true;
                   client_proxy := client_proxy |} in
  match tr.(connect) client with
  | Some e => raise e
  | None => emit (NewClient client) ;; ret client
  end.

(** [used_model = model or config.perplexity.model] *)
Definition effective_model (model : value) : value :=
  py_or model (attr PerplexitySettings config.(perplexity) "model").

(** [if prefix and not used_model.startswith(prefix):
       used_model = prefix + used_model] *)
Definition add_prefix (prefix used_model : value) : res value :=
  if truthy prefix then
    match used_model with
    | VStr m =>
        match prefix with
        | VStr p => Ok (if negb (startswith m p) then VStr (p +:+ m) else VStr m)
        | _ => Raise TypeError
        end
    | _ => Raise AttributeError
    end
  else Ok used_model.

(** The loop over [choices] that fills [content_parts]. *)
(** The model [search] sends upstream. *)
Definition resolve_model (model : value) : res value :=
  add_prefix (attr PerplexitySettings config.(perplexity) "model_prefix")
             (effective_model model).

Definition content_of (choice : value) : res (option value) :=
  has_m <~ py_contains "message" choice ;;
  if has_m then
    message <~ py_getitem choice "message" ;;
    has_c <~ py_contains "content" message ;;
    if has_c then
      content <~ py_getitem message "content" ;;
      Ok (Some content)
    else Ok None
  else Ok None.

Definition collect_content (choices : list value) : res (list value) :=
  fold_res (fun content_parts choice =>
              c <~ content_of choice ;;
              Ok (match c with
                  | Some content => (content_parts ++ [content])%list
                  | None => content_parts
                  end))
           choices [].

(** The loop over [enumerate(citations, 1)]. *)
Fixpoint citation_lines (index : nat) (citations : list value) : string :=
  match citations with
  | [] => ""
  | citation :: rest =>
      "[" +:+ pretty index +:+ "] " +:+ fstr citation +:+ newline
      +:+ citation_lines (S index) rest
  end.

Definition citations_header : string :=
  newline +:+ newline +:+ "引用信息:" +:+ newline.

Definition no_results : string := "未找到搜索结果".

Definition missing_key_message : string :=
  "请在配置文件或环境变量 PERPLEXITY_API_KEY 中设置 Perplexity API 密钥".

(** The part of [search] after the response was read. *)
Definition format_response (response_data : value) (ctx : bool) : M string :=
  has_choices <- lift (py_contains "choices" response_data) ;;
  if negb has_choices then
    let error_msg := "Perplexity API 响应格式无效：缺少 choices 字段" in
    when ctx (emit (CtxLog Error error_msg)) ;;
    raise (ValueError error_msg)
  else
    choices <- lift (py_get response_data "choices" (VList [])) ;;
    if negb (truthy choices) then
      when ctx (emit (CtxLog Warning "API 返回了空的 choices")) ;;
      ret no_results
    else
      choice_list <- lift (py_iter choices) ;;
      content_parts <- lift (collect_content choice_list) ;;
      content <- lift (py_join " " content_parts) ;;
      citations <- lift (py_get response_data "citations" (VList [])) ;;
      result <-
        (if truthy citations then
           (if ctx then
              n <- lift (py_len citations) ;;
              emit (CtxLog Info ("找到 " +:+ pretty n +:+ " 个引用"))
            else ret tt) ;;
           citation_list <- lift (py_iter citations) ;;
           ret (content +:+ citations_header +:+ citation_lines 1 citation_list)
         else ret content) ;;
      when ctx (emit (CtxLog Info ("搜索完成，返回 "
                                   +:+ pretty (length (chars content))
                                   +:+ " 个字符的结果"))) ;;
      ret result.

Definition search (tr : Transport) (keyword : string)
    (model system_message : value) (ctx : bool) : M string :=
  let perplexity := config.(perplexity) in
  when ctx (emit (CtxLog Info ("开始使用 Perplexity 搜索: " +:+ keyword))) ;;
  if negb (truthy (attr PerplexitySettings perplexity "api_key")) then
    let error_msg := missing_key_message in
    when ctx (emit (CtxLog Error error_msg)) ;;
    raise (ValueError error_msg)
  else
    used_model <- lift (resolve_model model) ;;
    let used_system_message :=
      py_or system_message (attr PerplexitySettings perplexity "system_message") in
    when ctx (emit (CtxLog Info ("使用模型: " +:+ fstr used_model)) ;;
              emit (CtxLog Debug ("系统消息: " +:+ fstr used_system_message))) ;;
    let request_data := VDict [
      ("model", used_model);
      ("messages", VList [
         VDict [("role", VStr "system"); ("content", used_system_message)];
         VDict [("role", VStr "user"); ("content", VStr keyword)]
       ])
    ] in
    let headers := [
      ("Content-Type", "application/json");
      ("Accept", "application/json");
      ("Authorization",
       "Bearer " +:+ fstr (attr PerplexitySettings perplexity "api_key"))
    ] in
    catch
      (when ctx (emit (CtxLog Info "正在调用 Perplexity API...")) ;;
       client <- create_http_client tr ;;
       response_data <-
         scoped client
           (let request := {| req_url := attr PerplexitySettings perplexity "api_url";
                              req_headers := headers;
                              req_json := request_data |} in
            emit (Post client request) ;;
            response <- lift (tr.(post) client request) ;;
            if negb (response.(status_code) =? 200)%Z then
              let error_msg := "Perplexity API 请求失败: "
                               +:+ pretty response.(status_code) +:+ " - "
                               +:+ response.(text) in
              when ctx (emit (CtxLog Error error_msg)) ;;
              raise (HTTPStatusError error_msg response.(status_code) response.(text))
            else
              response_data <- lift response.(json) ;;
              when ctx (emit (CtxLog Debug ("API 响应状态: "
                                            +:+ pretty response.(status_code)))) ;;
              ret response_data) ;;
       format_response response_data ctx)
      (fun e =>
         match e with
         | TimeoutException _ =>
             let error_msg := "Perplexity API 请求超时（"
                              +:+ fstr (attr PerplexitySettings perplexity "timeout")
                              +:+ "秒）" in
             when ctx (emit (CtxLog Error error_msg) ;;
                       match parse_proxy_config with
                       | [] => ret tt
                       | _ => emit (CtxLog Error "如果使用代理，请检查代理配置和网络连接")
                       end) ;;
             raise (TimeoutError error_msg)
         | ProxyError _ =>
             let error_msg := "代理连接错误: " +:+ str_exn e in
             when ctx (emit (CtxLog Error error_msg) ;;
                       emit (CtxLog Error "请检查代理配置是否正确，或尝试禁用代理")) ;;
             raise (ConnectionError error_msg)
         | HTTPStatusError _ status text =>
             let error_msg := "HTTP 请求错误: " +:+ pretty status +:+ " - " +:+ text in
             when ctx (emit (CtxLog Error error_msg)) ;;
             raise e
         | _ =>
             let error_msg := "未预期的错误: " +:+ str_exn e in
             when ctx (emit (CtxLog Error error_msg)) ;;
             raise e
         end).

End WithConfig.

End Server.
Export Server.

(** ** The specification's words, as definitions to compare the code with *)

Module Spec.

(** "Environment-set fields win over file-set fields, which win over
    defaults." *)
Definition precedence (env_value file_value : option value) (default : value)
  : value :=
  match env_value with
  | Some v => v
  | None =>
      match file_value with
      | Some v => v
      | None => default
      end
  end.

(** How an environment variable is read. *)
Inductive kind : Type := KStr | KInt | KFloat | KBool.

(** Field, environment variable and kind, as section 6 of the
    specification lists them. *)
Definition perplexity_vars : list (string * (string * kind)) := [
  ("api_key", ("PERPLEXITY_API_KEY", KStr));
  ("api_url", ("PERPLEXITY_API_URL", KStr));
  ("model", ("PERPLEXITY_MODEL", KStr));
  ("model_prefix", ("PERPLEXITY_MODEL_PREFIX", KStr));
  ("system_message", ("PERPLEXITY_SYSTEM_MESSAGE", KStr));
  ("timeout", ("PERPLEXITY_TIMEOUT", KFloat));
  ("max_retries", ("PERPLEXITY_MAX_RETRIES", KInt));
  ("retry_delay", ("PERPLEXITY_RETRY_DELAY", KFloat))
].

Definition server_vars : list (string * (string * kind)) := [
  ("host", ("MCP_HOST", KStr));
  ("port", ("MCP_PORT", KInt));
  ("path", ("MCP_PATH", KStr));
  ("log_level", ("LOG_LEVEL", KStr));
  ("enable_cors", ("ENABLE_CORS", KBool));
  ("max_request_size", ("MAX_REQUEST_SIZE", KInt))
].

(** The numeric variables. *)
Definition numeric_vars : list (string * kind) := [
  ("PERPLEXITY_TIMEOUT", KFloat);
  ("PERPLEXITY_RETRY_DELAY", KFloat);
  ("PERPLEXITY_MAX_RETRIES", KInt);
  ("MCP_PORT", KInt);
  ("MAX_REQUEST_SIZE", KInt)
].

Section WithRuntime.
Context `{Runtime}.

(** The value a variable gives a field: none when the variable is absent
    or empty, or is numeric and does not parse. *)
Definition read_var (k : kind) (s : string) : option value :=
  match k with
  | KStr => Some (VStr s)
  | KInt => VInt <$> py_int s
  | KFloat => VFloat <$> py_float s
  | KBool => Some (VBool (str_in (lower s) ["true"; "1"; "yes"; "on"]))
  end.

Definition env_value (env : environ) (var : string * kind) : option value :=
  match env !! fst var with
  | Some s => if nonempty s then read_var (snd var) s else None
  | None => None
  end.

(** A numeric variable holds a string that does not parse. *)
Definition unparsable (k : kind) (s : string) : Prop :=
  match k with
  | KInt => py_int s = None
  | KFloat => py_float s = None
  | _ => False
  end.

End WithRuntime.

(** The value a configuration file gives a field of a section. *)
Definition section_value (source : value) (section field : string) : option value :=
  match source with
  | VDict d =>
      match dict_get section d with
      | Some (VDict s) => dict_get field s
      | _ => None
      end
  | _ => None
  end.

Definition file_value (fs : file_read) (section field : string) : option value :=
  match fs with
  | Parsed v => section_value v section field
  | _ => None
  end.

(** What [_merge_configs] gets for the file. *)
Definition file_config_of (fs : file_read) : value :=
  match fs with
  | Parsed v => v
  | _ => VDict []
  end.

(** The attribute names [setattr] treats apart. *)
Definition reserved (name : string) : bool :=
  str_in name ["__class__"; "__dict__"; "__weakref__"].

Definition is_number (v : value) : bool :=
  match as_num v with Some _ => true | None => false end.

(** A section of a configuration file as section 6 describes it: absent,
    or an object without reserved keys whose values for the fields in
    [numeric], when present, are numbers. *)
Definition section_ok (numeric : list string) (section : option value) : bool :=
  match section with
  | None => true
  | Some (VDict s) =>
      bool_decide (NoDup (map fst s))
      && forallb (fun k => negb (reserved k)) (map fst s)
      && forallb (fun f => match dict_get f s with
                           | Some v => is_number v
                           | None => true
                           end) numeric
  | Some _ => false
  end.

Definition well_shaped (v : value) : bool :=
  match v with
  | VDict d =>
      section_ok ["timeout"; "max_retries"] (dict_get "perplexity" d)
      && section_ok ["port"; "max_request_size"] (dict_get "server" d)
  | _ => false
  end.

(** The file is missing, or cannot be opened or is not JSON, or holds a
    well-shaped object. *)
Definition readable (fs : file_read) : bool :=
  match fs with
  | NoFile => true
  | ReadRaises (JSONDecodeError _) | ReadRaises (IOError _) => true
  | ReadRaises _ => false
  | Parsed v => well_shaped v
  | ExistsRaises _ => false
  end.

(** The default of a field. *)
Definition default_of (cls : dataclass) (field : string) : value :=
  attr cls (new cls) field.

(** A section that is a dict as Python builds it and does not rebind
    [__dict__]. *)
Definition plain_section (source : value) (section : string) : Prop :=
  match source with
  | VDict d =>
      match dict_get section d with
      | Some (VDict s) => dict_wf s /\ dict_get "__dict__" s = None
      | _ => True
      end
  | _ => True
  end.

Definition plain_file (fs : file_read) : Prop :=
  match fs with
  | Parsed v => plain_section v "perplexity" /\ plain_section v "server"
  | _ => True
  end.

(** Section 4.4: the contents joined by one space; then, when there are
    citations, a blank line, a header and a numbered line for each. *)
Definition format (contents citations : list string) : string :=
  join " " contents +:+
  match citations with
  | [] => ""
  | _ =>
      newline +:+ newline +:+ "引用信息:" +:+ newline +:+
      String.concat ""
        (imap (fun i c => "[" +:+ pretty (S i) +:+ "] " +:+ c +:+ newline) citations)
  end.


(** The fields of a settings object, as [save_config] writes them. *)
Definition fields_of (cls : dataclass) (o : instance) : value :=
  VDict (map (fun kv => (fst kv, attr cls o (fst kv))) cls.(dc_fields)).

(** The values [save_config] writes: the declared fields of the two
    settings objects, the debug flag and the version. *)
Definition saved (config : AppConfig) : list value :=
  (map (fun kv => attr PerplexitySettings config.(perplexity) (fst kv))
       PerplexitySettings.(dc_fields)
   ++ map (fun kv => attr ServerSettings config.(server) (fst kv))
          ServerSettings.(dc_fields)
   ++ [config.(debug); VStr config.(config_version)])%list.

(** A value of the kinds the settings are declared with: a string, a
    number, a boolean or null. *)
Definition scalar (v : value) : bool :=
  match v with
  | VList _ | VDict _ => false
  | _ => true
  end.

(** A scalar that JSON text in UTF-8 holds: a string without a lone
    surrogate, an integer of at most 4300 digits. *)
Definition encodable (v : value) : bool :=
  match v with
  | VStr s => negb (has_surrogate s)
  | VInt z => (Z.abs z <? 10 ^ 4300)%Z
  | _ => true
  end.

(** A path that names a file for the file system and for the terminal: no
    NUL and no lone surrogate. *)
Definition plain_path (p : string) : bool :=
  negb (has_surrogate p) && negb (substring_of (String Ascii.zero "") p).

(** The content a choice holds, if any. *)
Definition content (choice : value) : option string :=
  match choice with
  | VDict d =>
      match dict_get "message" d with
      | Some (VDict m) =>
          match dict_get "content" m with
          | Some (VStr s) => Some s
          | _ => None
          end
      | _ => None
      end
  | _ => None
  end.

(** A choice as section 6 describes it: an object whose [message], when
    there is one, is an object whose [content], when there is one, is a
    string. *)
Definition choice_ok (choice : value) : bool :=
  match choice with
  | VDict d =>
      match dict_get "message" d with
      | Some (VDict m) =>
          match dict_get "content" m with
          | Some (VStr _) | None => true
          | Some _ => false
          end
      | Some _ => false
      | None => true
      end
  | _ => false
  end.

End Spec.

(** ** A runtime and inputs to run the definitions on *)

Module Example.

Fixpoint digits (s : string) (acc : Z) : option Z :=
  match s with
  | "" => Some acc
  | String a s' =>
      let n := nat_of_ascii a in
      if (48 <=? n)%nat && (n <=? 57)%nat
      then digits s' (10 * acc + Z.of_nat (n - 48))%Z
      else None
  end.

(** An unsigned decimal numeral. *)
Definition numeral (s : string) : option Z :=
  match s with
  | "" => None
  | _ => digits s 0
  end.

(** [scheme://netloc/...] *)
Fixpoint split_scheme (s : string) : option (string * string) :=
  match s with
  | "" => None
  | String a s' =>
      if String.prefix "://" s then Some ("", String.substring 3 (String.length s - 3) s)
      else match split_scheme s' with
           | Some (sch, rest) => Some (String a sch, rest)
           | None => None
           end
  end.

Fixpoint until_slash (s : string) : string :=
  match s with
  | "" => ""
  | String a s' => if Ascii.eqb a "/" then "" else String a (until_slash s')
  end.

Definition parse_url (url : string) : res ParseResult :=
  match split_scheme url with
  | Some (sch, rest) =>
      Ok {| scheme := sch; netloc := until_slash rest;
            hostname := Some (until_slash rest); port := Ok None;
            username := None |}
  | None =>
      Ok {| scheme := ""; netloc := ""; hostname := None; port := Ok None;
            username := None |}
  end.

(** A runtime that reads unsigned decimal numerals with [int] and [float]
    and URLs of the form [scheme://netloc/...]. *)
#[export] Instance runtime : Runtime := {|
  py_int := numeral;
  py_float := fun s => Z_to_float <$> numeral s;
  py_format := fun v =>
    match v with
    | VNone => "None"
    | VBool true => "True"
    | VBool false => "False"
    | VInt z => pretty z
    | _ => "..."
    end;
  exn_text := fun _ => "";
  urlparse := parse_url;
|}.

Definition manager : ConfigManager := ConfigManager_new None.

(** No proxy, and an API key. *)
Definition config : AppConfig :=
  set_perplexity (<["api_key" := VStr "pplx-key"]> (new PerplexitySettings))
                 AppConfig_new.


(** The response of section 8: two choices and a citation. *)
Definition choice (content : string) : value :=
  VDict [("index", VInt 0);
         ("message", VDict [("role", VStr "assistant"); ("content", VStr content)])].

Definition response : list (string * value) := [
  ("id", VStr "r-1");
  ("choices", VList [choice "A"; choice "B"]);
  ("citations", VList [VStr "http://x"])
].

(** No choice, and a citation. *)
Definition response_no_choice : list (string * value) := [
  ("choices", VList []);
  ("citations", VList [VStr "http://x"])
].

(** An empty configuration file: [json.load] raises. *)
Definition empty_file : file_read :=
  ReadRaises (JSONDecodeError "Expecting value: line 1 column 1 (char 0)").

(** [{"perplexity": {"timeout": "30"}}] *)
Definition file_timeout_string : file_read :=
  Parsed (VDict [("perplexity", VDict [("timeout", VStr "30")])]).

(** [{"config_version": "2.0", "perplexity": {"timeout": 45}}] *)
Definition file_version : file_read :=
  Parsed (VDict [("config_version", VStr "2.0");
                 ("perplexity", VDict [("timeout", VInt 45)])]).

Definition env_timeout_word : environ := {[ "PERPLEXITY_TIMEOUT" := "soon" ]}.

(** [{"perplexity": {"model": "sonar-pro", "timeout": 45},
      "server": {"port": 9000}}] *)
Definition file_settings : file_read :=
  Parsed (VDict [
    ("perplexity", VDict [("model", VStr "sonar-pro"); ("timeout", VInt 45)]);
    ("server", VDict [("port", VInt 9000)])
  ]).

Definition env_model : environ :=
  {[ "PERPLEXITY_MODEL" := "sonar-reasoning"; "DEBUG" := "1" ]}.

Definition env_proxy : environ :=
  {[ "HTTP_PROXY" := "http://proxy.example.com:8080" ]}.

Definition env_port_word : environ := {[ "MCP_PORT" := "eighty" ]}.

(** A file system on which nothing fails. *)
Definition io_ok : save_io := {| mkdir_fails := None; write_fails := None |}.

(** What [load_config] returns for [file_settings] and [env_model]. *)
Definition loaded : AppConfig :=
  match result (load_config manager file_settings env_model) with
  | Ok (_, cfg) => cfg
  | Raise _ => AppConfig_new
  end.

(** A transport whose every request is answered 200 with [body]. *)
Definition answering (body : value) : Transport := {|
  connect := fun _ => None;
  post := fun _ _ => Ok {| status_code := 200; text := ""; json := Ok body |};
|}.

End Example.

(** ** The rest of config.py: the cached configuration and the sample *)

Module Manager.

(** [ConfigManager.get_config] *)
Definition ConfigManager_get_config (self : ConfigManager) : option AppConfig :=
  self.(_config).

Section WithRuntime.
Context `{Runtime}.

(** The module function [get_config], with the global [config_manager] as
    its state: it loads once and returns what it loaded from then on. *)
Definition get_config (config_manager : ConfigManager) (fs : file_read)
    (env : environ) : M (ConfigManager * AppConfig) :=
  match ConfigManager_get_config config_manager with
  | Some config => ret (config_manager, config)
  | None => load_config config_manager fs env
  end.

(** [load_config_from_file(config_file)] *)
Definition load_config_from_file (config_file : string) (fs : file_read)
    (env : environ) : M (ConfigManager * AppConfig) :=
  load_config (ConfigManager_new (Some config_file)) fs env.

End WithRuntime.

(** The [AppConfig] that [create_sample_config] builds. *)
Definition sample_config : AppConfig := {|
  perplexity := list_to_map [
    ("api_key", VStr "your-perplexity-api-key-here");
    ("api_url", VStr "https://api.perplexity.ai/chat/completions");
    ("model", VStr "sonar");
    ("model_prefix", VStr "");
    ("system_message", VStr "Be precise and concise. Provide accurate information.");
    ("timeout", VFloat 30%float);
    ("max_retries", VInt 3);
    ("retry_delay", VFloat 1%float)
  ];
  server := list_to_map [
    ("host", VStr "127.0.0.1");
    ("port", VInt 8000);
    ("path", VStr "/mcp");
    ("log_level", VStr "info");
    ("enable_cors", VBool true);
    ("max_request_size", VInt (1024 * 1024))
  ];
  proxy := ProxySettings_new;
  debug := VBool false;
  config_version := "1.0";
|}.

Definition sample_file : string := "config.sample.json".

(** [create_sample_config]; [write_fails] is the [IOError] that [open] or
    [json.dump] raises, if any.  The error is printed, not raised. *)
Definition create_sample_config (self : ConfigManager)
    (write_fails : option string) : M unit :=
  p <- lift (asdict PerplexitySettings sample_config.(perplexity)) ;;
  s <- lift (asdict ServerSettings sample_config.(server)) ;;
  let config_dict := VDict [
    ("_comment", VStr "Perplexity MCP 服务器配置文件");
    ("_description", VDict [
       ("perplexity.api_key", VStr "Perplexity API 密钥 (必需)");
       ("perplexity.api_url", VStr "Perplexity API 端点URL");
       ("perplexity.model", VStr "使用的模型名称");
       ("perplexity.model_prefix", VStr "模型名称前缀，会自动添加到模型名称前面");
       ("perplexity.system_message", VStr "默认系统消息");
       ("perplexity.timeout", VStr "请求超时时间（秒）");
       ("server.host", VStr "服务器绑定地址");
       ("server.port", VStr "服务器端口");
       ("server.path", VStr "MCP 端点路径")
     ]);
    ("perplexity", p);
    ("server", s);
    ("debug", sample_config.(debug));
    ("config_version", VStr sample_config.(config_version))
  ] in
  match write_fails with
  | Some m => emit (Stdout ("❌ 示例配置文件创建失败: " +:+ m))
  | None =>
      emit (FileWrite sample_file config_dict) ;;
      emit (Stdout ("✅ 示例配置文件已创建: " +:+ sample_file))
  end.

End Manager.
Export Manager.

(** ** What a caller of the program observes, as definitions to state
    properties with *)

Module Outcome.

(** [math.isnan], for every value: [float("nan")], which
    [PERPLEXITY_TIMEOUT=nan] and a file's [NaN] give, compares false with
    every number. *)
Definition is_nan (v : value) : bool :=
  match v with
  | VFloat f => PrimFloat.is_nan f
  | _ => false
  end.



Section WithRuntime.
Context `{Runtime}.
Variable config : AppConfig.

(** The client a call works with: the configured timeout, redirects
    followed, and the single effective proxy when that validates. *)
Definition client_for : Client := {|
  client_timeout := attr PerplexitySettings config.(perplexity) "timeout";
  client_follow_redirects := true;
  client_proxy :=
    match get_httpx_proxy config.(proxy) with
    | Some url => if Config.validate_proxy_url url then Some url else None
    | None => None
    end;
|}.

(** The request of a call: the API URL, the bearer credential, and a
    system and a user message. *)
Definition request_for (keyword : string) (system_message used_model : value)
  : Request := {|
  req_url := attr PerplexitySettings config.(perplexity) "api_url";
  req_headers := [
    ("Content-Type", "application/json");
    ("Accept", "application/json");
    ("Authorization",
     "Bearer " +:+ fstr (attr PerplexitySettings config.(perplexity) "api_key"))
  ];
  req_json := VDict [
    ("model", used_model);
    ("messages", VList [
       VDict [("role", VStr "system");
              ("content", py_or system_message
                            (attr PerplexitySettings config.(perplexity)
                                  "system_message"))];
       VDict [("role", VStr "user"); ("content", VStr keyword)]
     ])
  ];
|}.

(** How an exception raised while the client works reaches the caller of
    [search]. *)
Definition surfaced (e : exn) : exn :=
  match e with
  | TimeoutException _ =>
      TimeoutError ("Perplexity API 请求超时（"
                    +:+ fstr (attr PerplexitySettings config.(perplexity) "timeout")
                    +:+ "秒）")
  | ProxyError m => ConnectionError ("代理连接错误: " +:+ m)
  | _ => e
  end.

(** What the client brings back for a request, or the exception that ends
    the exchange. *)
Definition exchange (tr : Transport) (request : Request) : res value :=
  match tr.(connect) client_for with
  | Some e => Raise e
  | None =>
      response <~ tr.(post) client_for request ;;
      if negb (response.(status_code) =? 200)%Z
      then Raise (HTTPStatusError
                    ("Perplexity API 请求失败: " +:+ pretty response.(status_code)
                     +:+ " - " +:+ response.(text))
                    response.(status_code) response.(text))
      else response.(json)
  end.

(** The five checks as they are worded: a key, a timeout above 0, no
    negative number of retries, a port from 1 to 65535 and a request size
    above 0. *)
Definition passes : Prop :=
  truthy (attr PerplexitySettings config.(perplexity) "api_key") = true
  /\ py_lt (VInt 0) (attr PerplexitySettings config.(perplexity) "timeout")
     = Ok true
  /\ py_le (VInt 0) (attr PerplexitySettings config.(perplexity) "max_retries")
     = Ok true
  /\ py_le (VInt 1) (attr ServerSettings config.(server) "port") = Ok true
  /\ py_le (attr ServerSettings config.(server) "port") (VInt 65535) = Ok true
  /\ py_lt (VInt 0) (attr ServerSettings config.(server) "max_request_size")
     = Ok true.

(** The four fields [_validate_config] compares are numbers. *)
Definition comparable : bool :=
  Spec.is_number (attr PerplexitySettings config.(perplexity) "timeout")
  && Spec.is_number (attr PerplexitySettings config.(perplexity) "max_retries")
  && Spec.is_number (attr ServerSettings config.(server) "port")
  && Spec.is_number (attr ServerSettings config.(server) "max_request_size").

End WithRuntime.

End Outcome.

(** ** Further examples *)

Module Cases.

(** A runtime whose [urlparse] finds a scheme and a host, and whose [port]
    raises as it does for [http://host:port] with a port that is no number. *)
Definition runtime_port_raises : Runtime := {|
  py_int := Example.numeral;
  py_float := fun s => Z_to_float <$> Example.numeral s;
  py_format := fun _ => "...";
  exn_text := fun _ => "";
  urlparse := fun url =>
    Ok {| scheme := "http"; netloc := "host:port"; hostname := Some "host";
          port := Raise (ValueError "Port could not be cast to integer value");
          username := None |};
|}.

Definition config_proxy (url : string) : AppConfig :=
  set_proxy {| http_proxy := url; https_proxy := "";
               all_proxy := ""; no_proxy := "" |} Example.config.

(** An API key that is the lone surrogate U+D800, as [json.load] reads it
    from the escape [\ud800]. *)
Definition config_surrogate : AppConfig :=
  set_perplexity
    (<["api_key" := VStr (String (ascii_of_nat 237)
                            (String (ascii_of_nat 160)
                               (String (ascii_of_nat 128) "")))]>
       (new PerplexitySettings))
    AppConfig_new.

(** A timeout that is no number: [PERPLEXITY_TIMEOUT=nan]. *)
Definition config_nan : AppConfig :=
  set_perplexity
    (<["timeout" := VFloat PrimFloat.nan]>
       (<["api_key" := VStr "pplx-key"]> (new PerplexitySettings)))
    AppConfig_new.

(** A transport whose client constructor refuses a proxy URL, as the HTTP
    library does for a port that is no number. *)
Definition refusing_proxy : Transport := {|
  connect := fun c =>
    match c.(client_proxy) with
    | Some _ => Some (OtherError "Invalid port")
    | None => None
    end;
  post := fun _ _ => Raise (OtherError "no request expected");
|}.

(** A transport on which every request times out. *)
Definition timing_out : Transport := {|
  connect := fun _ => None;
  post := fun _ _ => Raise (TimeoutException "timed out");
|}.

(** A transport whose every request is answered with [status] and [body]. *)
Definition replying (status : Z) (body : string) (data : res value) : Transport := {|
  connect := fun _ => None;
  post := fun _ _ => Ok {| status_code := status; text := body; json := data |};
|}.

End Cases.

(** * Properties *)

(** ** The effect monad *)

Section EffLemmas.
Context {A B : Type}.

Lemma result_bind (m : M A) (k : A -> M B) :
  result (Eff.bind m k) =
  match result m with
  | Ok a => result (k a)
  | Raise e => Raise e
  end.
Proof.
  destruct m as [t [a|e]]; simpl; [|reflexivity].
  destruct (k a); reflexivity.
Qed.


Lemma result_catch (m : M A) (h : exn -> M A) :
  result (catch m h) =
  match result m with
  | Ok a => Ok a
  | Raise e => result (h e)
  end.
Proof.
  destruct m as [t [a|e]]; simpl; [reflexivity|].
  destruct (h e); reflexivity.
Qed.


End EffLemmas.

(** ** ProxySettings.get_httpx_proxy *)

(** The single effective proxy, in one expression: [https_proxy] if set,
    else [all_proxy] if set, else [http_proxy] if set, else none. *)
Lemma get_httpx_proxy_eq (self : ProxySettings) :
  get_httpx_proxy self =
  if nonempty self.(https_proxy) then Some self.(https_proxy)
  else if nonempty self.(all_proxy) then Some self.(all_proxy)
  else if nonempty self.(http_proxy) then Some self.(http_proxy)
  else None.
Proof.
  unfold get_httpx_proxy, get_proxy_config.
  destruct (nonempty (http_proxy self)), (nonempty (https_proxy self)),
    (nonempty (all_proxy self)); reflexivity.
Qed.

(** C6.  The single effective proxy of a [ProxySettings], case by case
    ([String a s] is a string that is not empty): only [https_proxy] set
    gives [https_proxy]; only [http_proxy] set gives [http_proxy]; both set
    gives [https_proxy]; neither set and [all_proxy] set gives [all_proxy];
    nothing set gives none. *)
Theorem get_httpx_proxy_cases (a b : ascii) (s t x n : string) :
  get_httpx_proxy {| http_proxy := ""; https_proxy := String a s;
                     all_proxy := ""; no_proxy := n |} = Some (String a s)
  /\ get_httpx_proxy {| http_proxy := String a s; https_proxy := "";
                        all_proxy := ""; no_proxy := n |} = Some (String a s)
  /\ get_httpx_proxy {| http_proxy := String a s; https_proxy := String b t;
                        all_proxy := x; no_proxy := n |} = Some (String b t)
  /\ get_httpx_proxy {| http_proxy := ""; https_proxy := "";
                        all_proxy := String a s; no_proxy := n |} = Some (String a s)
  /\ get_httpx_proxy {| http_proxy := ""; https_proxy := "";
                        all_proxy := ""; no_proxy := n |} = None.
Proof.
  rewrite !get_httpx_proxy_eq; simpl. repeat split.
Qed.

(** ** search: the credential check *)

(** Without a truthy [api_key], [search] raises before it does anything
    with a client. *)
Lemma search_without_key `{Runtime} (config : AppConfig) (tr : Transport)
    (keyword : string) (model system_message : value) (ctx : bool) :
  truthy (attr PerplexitySettings config.(perplexity) "api_key") = false ->
  search config tr keyword model system_message ctx =
  (if ctx
   then [CtxLog Info ("开始使用 Perplexity 搜索: " +:+ keyword);
         CtxLog Error missing_key_message]
   else [],
   Raise (ValueError missing_key_message)).
Proof.
  intros Hkey. unfold search. rewrite Hkey. destruct ctx; reflexivity.
Qed.

(** C4.  When the resolved [api_key] is the empty string, [search] fails
    with the missing-credential error; all it did before is log to the
    progress sink, so no HTTP client was created and no request sent. *)
Theorem search_missing_credential `{Runtime} (config : AppConfig)
    (tr : Transport) (keyword : string) (model system_message : value)
    (ctx : bool) :
  attr PerplexitySettings config.(perplexity) "api_key" = VStr "" ->
  result (search config tr keyword model system_message ctx)
    = Raise (ValueError missing_key_message)
  /\ forall e, e ∈ trace (search config tr keyword model system_message ctx) ->
       exists l text, e = CtxLog l text.
Proof.
  intros Hkey.
  rewrite search_without_key by (rewrite Hkey; reflexivity).
  split; [reflexivity|].
  intros e He. destruct ctx; simpl in He.
  - apply elem_of_cons in He as [->|He]; [eauto|].
    apply elem_of_cons in He as [->|He]; [eauto|].
    apply elem_of_nil in He; destruct He.
  - apply elem_of_nil in He; destruct He.
Qed.

Lemma search_missing_credential_witness :
  let call := @search Example.runtime AppConfig_new (Example.answering VNone)
                      "rust" VNone VNone true in
  result call = Raise (ValueError missing_key_message)
  /\ forall e, e ∈ trace call -> exists l text, e = CtxLog l text.
Proof.
  apply (@search_missing_credential Example.runtime AppConfig_new
           (Example.answering VNone) "rust" VNone VNone true).
  reflexivity.
Defined.

(** ** search: the model sent upstream *)



(** The effective model is the override when it is a string that is not
    empty, and the configured model when there is none. *)
Lemma effective_model_cases (config : AppConfig) (a : ascii) (s : string) :
  effective_model config (VStr (String a s)) = VStr (String a s)
  /\ effective_model config VNone
     = attr PerplexitySettings config.(perplexity) "model"
  /\ effective_model config (VStr "")
     = attr PerplexitySettings config.(perplexity) "model".
Proof. repeat split. Qed.


Section TraceMembership.
Context {A B : Type}.





End TraceMembership.




(** ** create_http_client: a proxy URL that does not validate *)

Section ResultExt.
Context {A B : Type}.

Lemma result_bind_ext (m1 m2 : M A) (k1 k2 : A -> M B) :
  result m1 = result m2 ->
  (forall a, result (k1 a) = result (k2 a)) ->
  result (Eff.bind m1 k1) = result (Eff.bind m2 k2).
Proof.
  intros Hm Hk. rewrite !result_bind, Hm.
  destruct (result m2); [apply Hk | reflexivity].
Qed.


End ResultExt.


Section TraceAll.
Context {A B : Type} (P : event -> Prop).



End TraceAll.





(** ** search: the result text *)

Lemma content_of_ok (choice : value) :
  Spec.choice_ok choice = true ->
  content_of choice = Ok (VStr <$> Spec.content choice).
Proof.
  unfold Spec.choice_ok, Spec.content, content_of.
  destruct choice as [| | | | |l|d]; try discriminate.
  simpl. unfold dict_has.
  destruct (dict_get "message" d) as [[| | | | |l|m]|]; try discriminate;
    [|reflexivity].
  simpl. unfold dict_has.
  destruct (dict_get "content" m) as [[| | | |s| |]|]; try discriminate;
    reflexivity.
Qed.

Lemma collect_content_ok (choices acc : list value) :
  forallb Spec.choice_ok choices = true ->
  fold_res (fun content_parts choice =>
              c <~ content_of choice ;;
              Ok (match c with
                  | Some content => (content_parts ++ [content])%list
                  | None => content_parts
                  end))
           choices acc
  = Ok (acc ++ map VStr (omap Spec.content choices))%list.
Proof.
  revert acc. induction choices as [|c cs IH]; intros acc Hok; simpl.
  - rewrite app_nil_r. reflexivity.
  - simpl in Hok. apply andb_true_iff in Hok as [Hc Hcs].
    rewrite (content_of_ok c Hc). simpl.
    destruct (Spec.content c) as [s|]; simpl; rewrite IH by assumption.
    + rewrite <- app_assoc. reflexivity.
    + reflexivity.
Qed.

Lemma strings_of_strs (l : list string) : strings_of (map VStr l) = Ok l.
Proof.
  induction l as [|s l IH]; simpl; [reflexivity|]. rewrite IH. reflexivity.
Qed.

Lemma append_cons (a : ascii) (s t : string) :
  String a s +:+ t = String a (s +:+ t).
Proof. reflexivity. Qed.

Lemma append_empty_r (s : string) : s +:+ "" = s.
Proof.
  induction s as [|a s IH]; [reflexivity|]. rewrite append_cons, IH. reflexivity.
Qed.

Lemma append_assoc (a b c : string) : (a +:+ b) +:+ c = a +:+ (b +:+ c).
Proof.
  induction a as [|x a IH]; [reflexivity|]. rewrite !append_cons, IH. reflexivity.
Qed.

Lemma concat_empty_cons (x : string) (xs : list string) :
  String.concat "" (x :: xs) = x +:+ String.concat "" xs.
Proof.
  destruct xs; simpl; [symmetry; apply append_empty_r | reflexivity].
Qed.

Lemma citation_lines_strs `{Runtime} (n : nat) (cits : list string) :
  citation_lines n (map VStr cits)
  = String.concat ""
      (imap (fun i c => "[" +:+ pretty (n + i) +:+ "] " +:+ c +:+ newline) cits).
Proof.
  revert n. induction cits as [|c cs IH]; intros n; [reflexivity|].
  cbn [map citation_lines imap]. rewrite concat_empty_cons, IH.
  rewrite Nat.add_0_r, !append_assoc. unfold fstr. do 6 f_equal.
  apply imap_ext. intros i x _. simpl. rewrite Nat.add_succ_r. reflexivity.
Qed.


Lemma bind_lift_ok {A B} (a : A) (k : A -> M B) :
  Eff.bind (lift (Ok a)) k = k a.
Proof. unfold Eff.bind, lift. destruct (k a); reflexivity. Qed.

Lemma bind_ret {A B} (a : A) (k : A -> M B) : Eff.bind (ret a) k = k a.
Proof. exact (bind_lift_ok a k). Qed.

Lemma bind_cons_trace {A B} (e : event) (t : list event) (a : A)
    (k : A -> M B) :
  Eff.bind (e :: t, Ok a) k
  = (e :: trace (Eff.bind (t, Ok a) k), result (Eff.bind (t, Ok a) k)).
Proof. unfold Eff.bind. destruct (k a); reflexivity. Qed.

(** C8, as the code has it.  For a response whose [choices] is a list of
    choice objects and whose [citations], if any, are strings: when
    [choices] is empty the result is the "no results" text, whatever the
    citations; otherwise it is the contents of the choices that have one,
    in order, joined by one space, followed - when there are citations - by
    a blank line, the header and one line "[i] citation" per citation, in
    order, numbered from 1. *)
Theorem format_response_text `{Runtime} (d : list (string * value))
    (choices : list value) (citations : list string) (ctx : bool) :
  dict_get "choices" d = Some (VList choices) ->
  forallb Spec.choice_ok choices = true ->
  py_get (VDict d) "citations" (VList []) = Ok (VList (map VStr citations)) ->
  result (format_response (VDict d) ctx)
  = Ok (match choices with
        | [] => no_results
        | _ => Spec.format (omap Spec.content choices) citations
        end).
Proof.
  intros Hch Hok Hcit.
  assert (Hhas : py_contains "choices" (VDict d) = Ok true).
  { simpl. unfold dict_has. rewrite Hch. reflexivity. }
  assert (Hget : py_get (VDict d) "choices" (VList []) = Ok (VList choices)).
  { simpl. rewrite Hch. reflexivity. }
  unfold format_response. rewrite Hhas, bind_lift_ok. cbn [negb].
  rewrite Hget, bind_lift_ok.
  destruct choices as [|c cs].
  { cbn [truthy negb]. destruct ctx; reflexivity. }
  cbn [truthy negb py_iter]. rewrite bind_lift_ok.
  unfold collect_content. rewrite collect_content_ok by assumption.
  rewrite app_nil_l, bind_lift_ok.
  unfold py_join. rewrite strings_of_strs. cbn [res_bind].
  rewrite bind_lift_ok, Hcit, bind_lift_ok.
  set (content := join " " (omap Spec.content (c :: cs))).
  unfold Spec.format. fold content.
  destruct citations as [|x xs].
  - cbn [map truthy]. rewrite append_empty_r. destruct ctx; reflexivity.
  - cbn [map truthy].
    transitivity (Ok (content +:+ citations_header
                      +:+ citation_lines 1 (map VStr (x :: xs))) : res string).
    { destruct ctx; reflexivity. }
    f_equal.
    rewrite citation_lines_strs. unfold citations_header.
    rewrite !append_assoc. reflexivity.
Qed.

Lemma format_response_text_witness :
  result (@format_response Example.runtime (VDict Example.response) true)
  = Ok (Spec.format ["A"; "B"] ["http://x"]).
Proof.
  apply (@format_response_text Example.runtime Example.response
           [Example.choice "A"; Example.choice "B"] ["http://x"] true);
    reflexivity.
Defined.

(** The text of the example of section 8. *)
Example format_response_example :
  result (@format_response Example.runtime (VDict Example.response) false)
  = Ok ("A B" +:+ newline +:+ newline +:+ "引用信息:" +:+ newline
        +:+ "[1] http://x" +:+ newline).
Proof. reflexivity. Qed.

(** C8, as the claim states it, fails on an empty [choices] list: with a
    citation, the claim gives the citation block, the code the "no results"
    text. *)
Lemma format_response_empty_choices :
  result (@format_response Example.runtime (VDict Example.response_no_choice) false)
  = Ok no_results
  /\ result (@format_response Example.runtime (VDict Example.response_no_choice) false)
     <> Ok (Spec.format [] ["http://x"]).
Proof.
  split; [reflexivity|].
  intros E. vm_compute in E. discriminate E.
Qed.

(** ** save_config *)

Lemma json_dump_raises_cons (k : string) (x : value)
    (d : list (string * value)) :
  json_dump_raises (VDict ((k, x) :: d))
  = if has_surrogate k then Some UnicodeEncodeError
    else match json_dump_raises x with
         | Some e => Some e
         | None => json_dump_raises (VDict d)
         end.
Proof. reflexivity. Qed.

Lemma json_dump_raises_scalar (v : value) :
  Spec.scalar v = true ->
  json_dump_raises v
  = if Spec.encodable v then None
    else Some (match v with
               | VInt _ => ValueError int_limit_message
               | _ => UnicodeEncodeError
               end).
Proof.
  destruct v; try discriminate; intros _; try reflexivity.
  - change (json_dump_raises (VInt z))
      with (if (10 ^ 4300 <=? Z.abs z)%Z
            then Some (ValueError int_limit_message) else None).
    unfold Spec.encodable. rewrite Z.ltb_antisym.
    destruct (_ <=? _)%Z; reflexivity.
  - change (json_dump_raises (VStr s))
      with (if has_surrogate s then Some UnicodeEncodeError else None).
    unfold Spec.encodable. destruct (has_surrogate s); reflexivity.
Qed.

(** An object whose keys are plain and whose values are scalars is written
    exactly when every value is encodable. *)
Lemma json_dump_raises_flat (d : list (string * value)) :
  forallb (fun kv => negb (has_surrogate (fst kv))) d = true ->
  forallb Spec.scalar (map snd d) = true ->
  (json_dump_raises (VDict d) = None
   <-> forallb Spec.encodable (map snd d) = true)
  /\ (forall e, json_dump_raises (VDict d) = Some e ->
        e = UnicodeEncodeError \/ e = ValueError int_limit_message).
Proof.
  induction d as [|[k x] d IH]; intros Hk Hs.
  - split; [split; reflexivity | discriminate].
  - cbn [forallb map fst snd] in Hk, Hs |- *.
    apply andb_prop in Hk as [Hk1 Hk]. apply andb_prop in Hs as [Hs1 Hs].
    destruct (IH Hk Hs) as [IH1 IH2].
    rewrite json_dump_raises_cons.
    apply negb_true_iff in Hk1. rewrite Hk1.
    rewrite (json_dump_raises_scalar x Hs1).
    destruct (Spec.encodable x); cbn [andb].
    + split; [exact IH1 | exact IH2].
    + split; [split; discriminate|].
      intros e He. injection He as <-. destruct x; auto.
Qed.

Lemma save_content_raises (config : AppConfig) :
  forallb Spec.scalar (Spec.saved config) = true ->
  let content := VDict [
    ("perplexity", Spec.fields_of PerplexitySettings config.(perplexity));
    ("server", Spec.fields_of ServerSettings config.(server));
    ("debug", config.(debug));
    ("config_version", VStr config.(config_version))
  ] in
  (json_dump_raises content = None
   <-> forallb Spec.encodable (Spec.saved config) = true)
  /\ (forall e, json_dump_raises content = Some e ->
        e = UnicodeEncodeError \/ e = ValueError int_limit_message).
Proof.
  unfold Spec.saved. rewrite !forallb_app.
  intros Hs. apply andb_prop in Hs as [Hp Hs]. apply andb_prop in Hs as [Hs Hd].
  cbn [forallb] in Hd. apply andb_prop in Hd as [Hd _].
  cbv zeta.
  assert (Hpf :
    (json_dump_raises (Spec.fields_of PerplexitySettings config.(perplexity)) = None
     <-> forallb Spec.encodable
           (map (fun kv => attr PerplexitySettings config.(perplexity) (fst kv))
                PerplexitySettings.(dc_fields)) = true)
    /\ (forall e,
          json_dump_raises (Spec.fields_of PerplexitySettings config.(perplexity))
          = Some e ->
          e = UnicodeEncodeError \/ e = ValueError int_limit_message))
    by exact (json_dump_raises_flat
                (map (fun kv => (fst kv, attr PerplexitySettings config.(perplexity) (fst kv)))
                     PerplexitySettings.(dc_fields)) eq_refl Hp).
  assert (Hsf :
    (json_dump_raises (Spec.fields_of ServerSettings config.(server)) = None
     <-> forallb Spec.encodable
           (map (fun kv => attr ServerSettings config.(server) (fst kv))
                ServerSettings.(dc_fields)) = true)
    /\ (forall e,
          json_dump_raises (Spec.fields_of ServerSettings config.(server))
          = Some e ->
          e = UnicodeEncodeError \/ e = ValueError int_limit_message))
    by exact (json_dump_raises_flat
                (map (fun kv => (fst kv, attr ServerSettings config.(server) (fst kv)))
                     ServerSettings.(dc_fields)) eq_refl Hs).
  destruct Hpf as [Hp1 Hp2]. destruct Hsf as [Hs1 Hs2].
  rewrite !json_dump_raises_cons.
  change (has_surrogate "perplexity") with false.
  change (has_surrogate "server") with false.
  change (has_surrogate "debug") with false.
  change (has_surrogate "config_version") with false.
  cbv iota.
  change (json_dump_raises (VDict [])) with (@None exn).
  rewrite (json_dump_raises_scalar _ Hd),
          (json_dump_raises_scalar (VStr (config_version config)) eq_refl).
  cbn [forallb].
  destruct (json_dump_raises (Spec.fields_of PerplexitySettings _))
    as [e1|] eqn:E1.
  { split.
    - split; [discriminate|]. intros Hall.
      apply andb_prop in Hall as [Hall _]. apply Hp1 in Hall. discriminate.
    - intros e He. injection He as <-. apply Hp2. reflexivity. }
  rewrite (proj1 Hp1 eq_refl).
  destruct (json_dump_raises (Spec.fields_of ServerSettings _))
    as [e2|] eqn:E2.
  { split.
    - split; [discriminate|]. intros Hall.
      apply andb_prop in Hall as [_ Hall]. apply andb_prop in Hall as [Hall _].
      apply Hs1 in Hall. discriminate.
    - intros e He. injection He as <-. apply Hs2. reflexivity. }
  rewrite (proj1 Hs1 eq_refl).
  cbn [andb].
  destruct (Spec.encodable (debug config)); cbn [andb].
  - destruct (Spec.encodable (VStr (config_version config))); cbn [andb].
    + split; [split; reflexivity | discriminate].
    + split; [split; discriminate | intros e He; injection He as <-; auto].
  - split; [split; discriminate|].
    intros e He. injection He as <-. destruct (debug config); auto.
Qed.

(** C9, as the code has it.  For a configuration whose settings objects
    have their declared fields only, with scalar values that JSON text in
    UTF-8 holds, and a target path that names a file, [save_config] creates
    the parent directories and writes the [perplexity] and [server] groups,
    [debug] and [config_version] - no [proxy] group -, and raises exactly
    when creating the directories or writing fails, with that I/O error. *)
Theorem save_config_writes (self : ConfigManager) (config : AppConfig)
    (io : save_io) :
  config.(perplexity) !! "__dataclass_fields__" = None ->
  config.(server) !! "__dataclass_fields__" = None ->
  forallb Spec.scalar (Spec.saved config) = true ->
  forallb Spec.encodable (Spec.saved config) = true ->
  Spec.plain_path self.(config_file) = true ->
  let content := VDict [
    ("perplexity", Spec.fields_of PerplexitySettings config.(perplexity));
    ("server", Spec.fields_of ServerSettings config.(server));
    ("debug", config.(debug));
    ("config_version", VStr config.(config_version))
  ] in
  result (save_config self (Some config) io)
  = match io.(mkdir_fails), io.(write_fails) with
    | Some m, _ => Raise (IOError m)
    | None, Some m => Raise (IOError m)
    | None, None => Ok tt
    end
  /\ (io.(mkdir_fails) = None -> io.(write_fails) = None ->
      trace (save_config self (Some config) io)
      = [MkdirParents self.(config_file);
         FileWrite self.(config_file) content;
         Stdout ("✅ 配置已保存到: " +:+ self.(config_file))])
  /\ py_contains "proxy" content = Ok false.
Proof.
  intros Hp Hs Hsc Henc _ content.
  pose proof (proj2 (proj1 (save_content_raises config Hsc)) Henc) as Hdump.
  unfold save_config, asdict. rewrite Hp, Hs. rewrite !bind_lift_ok.
  unfold Spec.fields_of in Hdump. rewrite Hdump.
  destruct io as [[m|] [w|]]; cbn; repeat split; intros; congruence.
Qed.

Lemma save_config_writes_witness :
  let self := Example.manager in
  let config := Example.config in
  let io := Example.io_ok in
  let content := VDict [
    ("perplexity", Spec.fields_of PerplexitySettings config.(perplexity));
    ("server", Spec.fields_of ServerSettings config.(server));
    ("debug", config.(debug));
    ("config_version", VStr config.(config_version))
  ] in
  result (save_config self (Some config) io)
  = match io.(mkdir_fails), io.(write_fails) with
    | Some m, _ => Raise (IOError m)
    | None, Some m => Raise (IOError m)
    | None, None => Ok tt
    end
  /\ (io.(mkdir_fails) = None -> io.(write_fails) = None ->
      trace (save_config self (Some config) io)
      = [MkdirParents self.(config_file);
         FileWrite self.(config_file) content;
         Stdout ("✅ 配置已保存到: " +:+ self.(config_file))])
  /\ py_contains "proxy" content = Ok false.
Proof.
  apply (save_config_writes Example.manager Example.config Example.io_ok);
    vm_compute; reflexivity.
Defined.

(** A string that UTF-8 cannot hold - the lone surrogate that [json.load]
    reads from an escape - makes [json.dump] raise; the handler is for
    [IOError], and the target is left cut. *)
Example save_config_lone_surrogate :
  save_config Example.manager (Some Cases.config_surrogate) Example.io_ok
  = ([MkdirParents "config.json"; FileTruncated "config.json"],
     Raise UnicodeEncodeError).
Proof. vm_compute. reflexivity. Qed.

(** C9, as the claim states it, fails: what [save_config] writes has no
    [proxy] group. *)
Lemma save_config_omits_proxy :
  exists content,
    FileWrite "config.json" content
      ∈ trace (save_config Example.manager (Some Example.config) Example.io_ok)
    /\ py_contains "perplexity" content = Ok true
    /\ py_contains "server" content = Ok true
    /\ py_contains "proxy" content = Ok false.
Proof.
  eexists. split.
  - apply elem_of_cons; right. apply elem_of_cons; left. reflexivity.
  - repeat split.
Qed.

(** ** Dicts *)

Section DictLemmas.
Context {V : Type}.
Implicit Types (d : list (string * V)) (k : string) (v : V).

Lemma dict_get_notin k d : k ∉ map fst d -> dict_get k d = None.
Proof.
  induction d as [|[k' v'] d IH]; intros Hk; [reflexivity|]. simpl.
  destruct (String.eqb_spec k k') as [->|Hne].
  - exfalso. apply Hk. simpl. apply elem_of_cons; left; reflexivity.
  - apply IH. intros Hin. apply Hk. simpl. apply elem_of_cons; right; exact Hin.
Qed.

Lemma dict_get_in k v d : dict_get k d = Some v -> k ∈ map fst d.
Proof.
  induction d as [|[k' v'] d IH]; simpl; [discriminate|].
  destruct (String.eqb_spec k k') as [->|Hne]; intros Hg.
  - apply elem_of_cons; left; reflexivity.
  - apply elem_of_cons; right; auto.
Qed.

Lemma dict_get_set k k' v d :
  dict_get k (dict_set k' v d) = if String.eqb k k' then Some v else dict_get k d.
Proof.
  induction d as [|[k0 v0] d IH]; simpl.
  - destruct (String.eqb k k'); reflexivity.
  - destruct (String.eqb_spec k' k0) as [->|Hne]; simpl.
    + destruct (String.eqb k k0); reflexivity.
    + rewrite IH. destruct (String.eqb_spec k k0) as [->|Hne'].
      * destruct (String.eqb_spec k0 k'); [congruence | reflexivity].
      * reflexivity.
Qed.

Lemma dict_set_keys x k v d :
  x ∈ map fst (dict_set k v d) -> x = k \/ x ∈ map fst d.
Proof.
  induction d as [|[k0 v0] d IH]; simpl.
  - intros Hx. apply elem_of_cons in Hx as [->|Hx]; [left; reflexivity|].
    apply elem_of_nil in Hx; destruct Hx.
  - destruct (String.eqb_spec k k0) as [->|Hne]; simpl; intros Hx.
    + right. exact Hx.
    + apply elem_of_cons in Hx as [->|Hx].
      * right. apply elem_of_cons; left; reflexivity.
      * destruct (IH Hx) as [->|Hin]; [left; reflexivity|].
        right. apply elem_of_cons; right; exact Hin.
Qed.

Lemma dict_set_wf k v d : dict_wf d -> dict_wf (dict_set k v d).
Proof.
  unfold dict_wf. induction d as [|[k0 v0] d IH]; simpl; intros Hwf.
  - apply NoDup_singleton.
  - apply NoDup_cons in Hwf as [Hk0 Hd].
    destruct (String.eqb_spec k k0) as [->|Hne]; simpl.
    + apply NoDup_cons; split; assumption.
    + apply NoDup_cons; split; [|apply IH; exact Hd].
      intros Hin. apply dict_set_keys in Hin as [->|Hin]; [congruence|].
      exact (Hk0 Hin).
Qed.

End DictLemmas.

Lemma collect_fold_get (keep : value -> bool) (entries acc : list (string * value))
    (k : string) :
  NoDup (map fst entries) ->
  dict_get k
    (fold_left (fun d kv => if keep (snd kv) then dict_set (fst kv) (snd kv) d else d)
               entries acc)
  = match dict_get k entries with
    | Some v => if keep v then Some v else dict_get k acc
    | None => dict_get k acc
    end.
Proof.
  revert acc. induction entries as [|[k1 v1] entries IH]; intros acc Hnd;
    [reflexivity|].
  simpl in Hnd. apply NoDup_cons in Hnd as [Hk1 Hnd].
  cbn [fold_left fst snd dict_get]. rewrite IH by assumption.
  destruct (String.eqb_spec k k1) as [->|Hne].
  - rewrite (dict_get_notin k1 entries Hk1).
    destruct (keep v1); [|reflexivity].
    rewrite dict_get_set, String.eqb_refl. reflexivity.
  - assert (Hacc : dict_get k (if keep v1 then dict_set k1 v1 acc else acc)
                   = dict_get k acc).
    { destruct (keep v1); [|reflexivity].
      rewrite dict_get_set. destruct (String.eqb_spec k k1); [congruence|reflexivity]. }
    rewrite Hacc. reflexivity.
Qed.

Lemma collect_get (keep : value -> bool) (entries : list (string * value))
    (k : string) :
  NoDup (map fst entries) ->
  dict_get k (collect keep entries)
  = match dict_get k entries with
    | Some v => if keep v then Some v else None
    | None => None
    end.
Proof. intros Hnd. unfold collect. rewrite collect_fold_get by assumption. reflexivity. Qed.

Lemma collect_wf (keep : value -> bool) (entries : list (string * value)) :
  dict_wf (collect keep entries).
Proof.
  unfold collect.
  assert (Hacc : dict_wf ([] : list (string * value))) by apply NoDup_nil_2.
  revert Hacc. generalize ([] : list (string * value)).
  induction entries as [|[k v] entries IH]; intros acc Hacc; [exact Hacc|].
  cbn [fold_left fst snd]. apply IH.
  destruct (keep v); [apply dict_set_wf|]; exact Hacc.
Qed.

Lemma collect_keys (keep : value -> bool) (entries : list (string * value))
    (k : string) :
  k ∈ map fst (collect keep entries) -> k ∈ map fst entries.
Proof.
  unfold collect.
  assert (Hgen : forall acc,
             k ∈ map fst (fold_left
                            (fun d kv => if keep (snd kv)
                                         then dict_set (fst kv) (snd kv) d else d)
                            entries acc) ->
             k ∈ map fst acc \/ k ∈ map fst entries).
  { induction entries as [|[k1 v1] entries IH]; intros acc Hk; [left; exact Hk|].
    cbn [fold_left fst snd] in Hk. apply IH in Hk as [Hk|Hk].
    - destruct (keep v1).
      + apply dict_set_keys in Hk as [->|Hk]; [right|left; exact Hk].
        simpl. apply elem_of_cons; left; reflexivity.
      + left; exact Hk.
    - right. simpl. apply elem_of_cons; right; exact Hk. }
  intros Hk. destruct (Hgen [] Hk) as [Hnil|Hin]; [|exact Hin].
  apply elem_of_nil in Hnil; destruct Hnil.
Qed.

(** ** Reflection: [hasattr] and [setattr] over the items of a section *)

Lemma reserved_false (k : string) :
  Spec.reserved k = false ->
  String.eqb k "__class__" = false
  /\ String.eqb k "__dict__" = false
  /\ String.eqb k "__weakref__" = false.
Proof.
  unfold Spec.reserved, str_in. intros Hk. apply bool_decide_eq_false in Hk.
  repeat split; apply String.eqb_neq; intros ->; apply Hk; set_solver.
Qed.

Lemma setattr_plain (o : instance) (k : string) (v : value) :
  Spec.reserved k = false -> setattr o k v = Ok (<[k := v]> o).
Proof.
  intros Hk. destruct (reserved_false k Hk) as (H1 & H2 & H3).
  unfold setattr. rewrite H1, H2, H3. reflexivity.
Qed.

Lemma setattr_ok_inv (o o' : instance) (k : string) (v : value) :
  setattr o k v = Ok o' -> String.eqb k "__dict__" = false -> o' = <[k := v]> o.
Proof.
  unfold setattr. intros Hs Hk. rewrite Hk in Hs.
  destruct (String.eqb k "__class__"); [discriminate|].
  destruct (String.eqb k "__weakref__"); [discriminate|].
  congruence.
Qed.

Section ApplySection.
Variable cls : dataclass.

Lemma hasattr_declared (o : instance) (f : string) :
  dict_has f cls.(dc_fields) = true -> hasattr cls o f = true.
Proof.
  intros Hf. unfold hasattr. rewrite Hf, orb_true_r. reflexivity.
Qed.

Lemma fold_items_lookup (d : list (string * value)) :
  forall o o' : instance,
  dict_wf d ->
  dict_get "__dict__" d = None ->
  fold_res (apply_item cls) d o = Ok o' ->
  forall f, dict_has f cls.(dc_fields) = true ->
    o' !! f = match dict_get f d with
              | Some v => Some v
              | None => o !! f
              end.
Proof.
  induction d as [|[k v] d IH]; intros o o' Hwf Hnd Hfold f Hf.
  - simpl in Hfold. injection Hfold as ->. reflexivity.
  - unfold dict_wf in Hwf. simpl in Hwf. apply NoDup_cons in Hwf as [Hk Hwf].
    cbn [dict_get] in Hnd.
    destruct (String.eqb_spec "__dict__" k) as [|Hkd]; [discriminate|].
    assert (Hkd' : String.eqb k "__dict__" = false)
      by (apply String.eqb_neq; congruence).
    cbn [fold_res] in Hfold.
    destruct (apply_item cls o (k, v)) as [o1|e] eqn:Hstep; [|discriminate]. simpl in Hfold.
    rewrite (IH o1 o' Hwf Hnd Hfold f Hf). simpl.
    unfold apply_item in Hstep. cbn [fst snd] in Hstep.
    destruct (String.eqb_spec f k) as [->|Hne].
    + rewrite (dict_get_notin k d Hk).
      rewrite (hasattr_declared o k Hf) in Hstep.
      rewrite (setattr_ok_inv _ _ _ _ Hstep Hkd'). apply lookup_insert_eq.
    + destruct (dict_get f d); [reflexivity|].
      destruct (hasattr cls o k).
      * rewrite (setattr_ok_inv _ _ _ _ Hstep Hkd').
        apply lookup_insert_ne. congruence.
      * congruence.
Qed.

Lemma fold_items_ok (d : list (string * value)) :
  forall o : instance,
  forallb (fun k => negb (Spec.reserved k)) (map fst d) = true ->
  exists o', fold_res (apply_item cls) d o = Ok o'.
Proof.
  induction d as [|[k v] d IH]; intros o Hok; [eexists; reflexivity|].
  simpl in Hok. apply andb_true_iff in Hok as [Hk Hok].
  apply negb_true_iff in Hk. cbn [fold_res]. unfold apply_item at 1. cbn [fst snd].
  destruct (hasattr cls o k); [rewrite setattr_plain by assumption|];
    simpl; apply IH; assumption.
Qed.

Lemma attr_of_lookup (o o' : instance) (f : string) (x : option value) :
  o' !! f = match x with Some v => Some v | None => o !! f end ->
  attr cls o' f = match x with Some v => v | None => attr cls o f end.
Proof. unfold attr. intros ->. destruct x; reflexivity. Qed.

(** What a named section leaves in the fields of a settings object. *)
Lemma apply_named_attr (name : string) (source : value) (o o' : instance) :
  apply_named cls name source o = Ok o' ->
  Spec.plain_section source name ->
  forall f, dict_has f cls.(dc_fields) = true ->
    attr cls o' f = match Spec.section_value source name f with
                    | Some v => v
                    | None => attr cls o f
                    end.
Proof.
  unfold apply_named, Spec.plain_section, Spec.section_value.
  intros Happ Hplain f Hf.
  destruct source as [| | | |s|l|d]; simpl in Happ; try discriminate.
  - destruct (substring_of name s); simpl in Happ; congruence.
  - destruct (existsb _ l); simpl in Happ; congruence.
  - unfold dict_has in Happ.
    destruct (dict_get name d) as [section|]; simpl in Happ; [|congruence].
    unfold apply_section in Happ.
    destruct section as [| | | | | |items]; simpl in Happ; try discriminate.
    destruct Hplain as [Hwf Hnd].
    apply attr_of_lookup.
    exact (fold_items_lookup items o o' Hwf Hnd Happ f Hf).
Qed.

Lemma section_ok_plain (numeric : list string) (name : string)
    (d : list (string * value)) :
  Spec.section_ok numeric (dict_get name d) = true ->
  Spec.plain_section (VDict d) name.
Proof.
  unfold Spec.section_ok, Spec.plain_section.
  destruct (dict_get name d) as [[| | | | | |items]|]; try discriminate; [|auto].
  intros Hok. apply andb_true_iff in Hok as [Hok _].
  apply andb_true_iff in Hok as [Hwf Hres].
  apply bool_decide_eq_true in Hwf. split; [exact Hwf|].
  destruct (dict_get "__dict__" items) as [v|] eqn:Hg; [|reflexivity].
  apply dict_get_in in Hg.
  rewrite forallb_forall in Hres.
  apply list_elem_of_In in Hg. apply Hres in Hg. discriminate Hg.
Qed.

Lemma apply_named_ok (numeric : list string) (name : string)
    (d : list (string * value)) (o : instance) :
  Spec.section_ok numeric (dict_get name d) = true ->
  exists o', apply_named cls name (VDict d) o = Ok o'.
Proof.
  unfold Spec.section_ok, apply_named. simpl. unfold dict_has.
  destruct (dict_get name d) as [[| | | | | |items]|]; try discriminate;
    [|eexists; reflexivity].
  intros Hok. apply andb_true_iff in Hok as [Hok _].
  apply andb_true_iff in Hok as [_ Hres].
  simpl. unfold apply_section. simpl. apply fold_items_ok. exact Hres.
Qed.

End ApplySection.

(** ** _load_from_env *)

Ltac literal_key H :=
  repeat match type of H with
         | (if String.eqb ?f ?lit then _ else _) = _ =>
             destruct (String.eqb_spec f lit) as [->|_]
         end.

Lemma perplexity_vars_declared (f : string) (x : string * Spec.kind) :
  dict_get f Spec.perplexity_vars = Some x ->
  dict_has f PerplexitySettings.(dc_fields) = true.
Proof.
  intros Hf. cbn [dict_get Spec.perplexity_vars] in Hf.
  literal_key Hf; try reflexivity. discriminate.
Qed.

Lemma server_vars_declared (f : string) (x : string * Spec.kind) :
  dict_get f Spec.server_vars = Some x ->
  dict_has f ServerSettings.(dc_fields) = true.
Proof.
  intros Hf. cbn [dict_get Spec.server_vars] in Hf.
  literal_key Hf; try reflexivity. discriminate.
Qed.

Section EnvLemmas.
Context `{Runtime}.

Lemma is_set_str (env : environ) (var : string) :
  (if is_set (VStr (getenv_or env var "")) then Some (VStr (getenv_or env var ""))
   else None)
  = Spec.env_value env (var, Spec.KStr).
Proof.
  unfold Spec.env_value, getenv_or. cbn [fst snd is_set Spec.read_var].
  destruct (env !! var) as [s|]; [|reflexivity]. reflexivity.
Qed.

Lemma is_set_int (env : environ) (var : string) :
  (if is_set (of_int (_parse_int (getenv env var)))
   then Some (of_int (_parse_int (getenv env var))) else None)
  = Spec.env_value env (var, Spec.KInt).
Proof.
  unfold Spec.env_value, getenv, _parse_int, nonempty.
  cbn [fst snd Spec.read_var].
  destruct (env !! var) as [s|]; [|reflexivity].
  destruct (String.eqb s ""); [reflexivity|]. cbn [negb].
  destruct (py_int s); reflexivity.
Qed.

Lemma is_set_float (env : environ) (var : string) :
  (if is_set (of_float (_parse_float (getenv env var)))
   then Some (of_float (_parse_float (getenv env var))) else None)
  = Spec.env_value env (var, Spec.KFloat).
Proof.
  unfold Spec.env_value, getenv, _parse_float, nonempty.
  cbn [fst snd Spec.read_var].
  destruct (env !! var) as [s|]; [|reflexivity].
  destruct (String.eqb s ""); [reflexivity|]. cbn [negb].
  destruct (py_float s); reflexivity.
Qed.

Lemma is_set_bool (env : environ) (var : string) :
  (if is_set (of_bool (_parse_bool (getenv env var)))
   then Some (of_bool (_parse_bool (getenv env var))) else None)
  = Spec.env_value env (var, Spec.KBool).
Proof.
  unfold Spec.env_value, getenv, _parse_bool, nonempty.
  cbn [fst snd Spec.read_var].
  destruct (env !! var) as [s|]; [|reflexivity].
  destruct (String.eqb s ""); reflexivity.
Qed.

Lemma perplexity_env_wf (env : environ) : NoDup (map fst (perplexity_env env)).
Proof. apply (bool_decide_unpack _). vm_compute. exact I. Qed.

Lemma server_env_wf (env : environ) : NoDup (map fst (server_env env)).
Proof. apply (bool_decide_unpack _). vm_compute. exact I. Qed.

(** The environment section holds, for each field, the value its variable
    gives. *)
Lemma env_perplexity_value (env : environ) (f : string) (x : string * Spec.kind) :
  dict_get f Spec.perplexity_vars = Some x ->
  dict_get f (collect is_set (perplexity_env env)) = Spec.env_value env x.
Proof.
  intros Hf. rewrite collect_get by apply perplexity_env_wf.
  cbn [dict_get Spec.perplexity_vars] in Hf.
  literal_key Hf; try discriminate; injection Hf as <-;
    cbn [dict_get perplexity_env String.eqb Ascii.eqb Bool.eqb];
    first [apply is_set_str | apply is_set_int | apply is_set_float].
Qed.

Lemma env_server_value (env : environ) (f : string) (x : string * Spec.kind) :
  dict_get f Spec.server_vars = Some x ->
  dict_get f (collect is_set (server_env env)) = Spec.env_value env x.
Proof.
  intros Hf. rewrite collect_get by apply server_env_wf.
  cbn [dict_get Spec.server_vars] in Hf.
  literal_key Hf; try discriminate; injection Hf as <-;
    cbn [dict_get server_env String.eqb Ascii.eqb Bool.eqb];
    first [apply is_set_str | apply is_set_int | apply is_set_bool].
Qed.

End EnvLemmas.

(** ** _merge_configs *)

(** What one source leaves in the configuration. *)
Lemma apply_source_spec (source : value) (c c' : AppConfig) :
  apply_source source c = Ok c' ->
  Spec.plain_section source "perplexity" ->
  Spec.plain_section source "server" ->
  (forall f, dict_has f PerplexitySettings.(dc_fields) = true ->
     attr PerplexitySettings c'.(perplexity) f
     = match Spec.section_value source "perplexity" f with
       | Some v => v
       | None => attr PerplexitySettings c.(perplexity) f
       end)
  /\ (forall f, dict_has f ServerSettings.(dc_fields) = true ->
        attr ServerSettings c'.(server) f
        = match Spec.section_value source "server" f with
          | Some v => v
          | None => attr ServerSettings c.(server) f
          end)
  /\ c'.(proxy) = c.(proxy)
  /\ c'.(config_version) = c.(config_version).
Proof.
  unfold apply_source. intros Happ Hp Hs.
  destruct (apply_named PerplexitySettings "perplexity" source (perplexity c))
    as [p|] eqn:Ep; [|discriminate].
  cbn [res_bind set_perplexity server] in Happ.
  destruct (apply_named ServerSettings "server" source (server c))
    as [s|] eqn:Es; [|discriminate].
  cbn [res_bind] in Happ.
  assert (Hc' : perplexity c' = p /\ server c' = s
                /\ proxy c' = proxy c /\ config_version c' = config_version c).
  { destruct (py_contains "debug" source) as [[|]|]; cbn [res_bind] in Happ;
      [| |discriminate].
    - destruct (py_getitem source "debug"); [|discriminate].
      injection Happ as <-. repeat split.
    - injection Happ as <-. repeat split. }
  destruct Hc' as (-> & -> & Hx & Hv).
  repeat split; try assumption.
  - intros f Hf. exact (apply_named_attr _ _ _ _ _ Ep Hp f Hf).
  - intros f Hf. exact (apply_named_attr _ _ _ _ _ Es Hs f Hf).
Qed.

(** A source that is a dict with a [debug] key sets [debug]. *)
Lemma apply_source_debug (d : list (string * value)) (v : value)
    (c c' : AppConfig) :
  apply_source (VDict d) c = Ok c' ->
  dict_get "debug" d = Some v ->
  c'.(debug) = v.
Proof.
  unfold apply_source. intros Happ Hd.
  destruct (apply_named PerplexitySettings _ _ _); [|discriminate].
  cbn [res_bind set_perplexity server] in Happ.
  destruct (apply_named ServerSettings _ _ _); [|discriminate].
  cbn [res_bind py_contains py_getitem] in Happ.
  unfold dict_has in Happ. rewrite Hd in Happ. cbn [res_bind] in Happ.
  injection Happ as <-. reflexivity.
Qed.

Lemma apply_source_ok (d : list (string * value)) (c : AppConfig) :
  Spec.well_shaped (VDict d) = true ->
  exists c', apply_source (VDict d) c = Ok c'.
Proof.
  unfold Spec.well_shaped. intros Hok. apply andb_true_iff in Hok as [Hp Hs].
  unfold apply_source.
  destruct (apply_named_ok PerplexitySettings _ "perplexity" d (perplexity c) Hp)
    as [p ->].
  cbn [res_bind set_perplexity server].
  destruct (apply_named_ok ServerSettings _ "server" d (server c) Hs) as [s ->].
  cbn [res_bind py_contains py_getitem]. unfold dict_has.
  destruct (dict_get "debug" d); cbn [res_bind]; eexists; reflexivity.
Qed.

Lemma well_shaped_plain (v : value) :
  Spec.well_shaped v = true ->
  Spec.plain_section v "perplexity" /\ Spec.plain_section v "server".
Proof.
  destruct v as [| | | | | |d]; try discriminate.
  unfold Spec.well_shaped. intros Hok. apply andb_true_iff in Hok as [Hp Hs].
  split; eapply section_ok_plain; eassumption.
Qed.

Section MergeLemmas.
Context `{Runtime}.

Lemma env_well_shaped (env : environ) :
  Spec.well_shaped (_load_from_env env) = true.
Proof.
  assert (Hres : forall keep entries,
             (forall k, k ∈ map fst entries -> Spec.reserved k = false) ->
             forallb (fun k => negb (Spec.reserved k))
                     (map fst (collect keep entries)) = true).
  { intros keep entries Hk. apply forallb_forall. intros k Hin.
    apply list_elem_of_In, collect_keys, Hk in Hin. rewrite Hin. reflexivity. }
  assert (Hnum : forall numeric (entries : list (string * value)),
             (forall f v, dict_get f entries = Some v -> is_set v = true ->
                          f ∈ numeric -> Spec.is_number v = true) ->
             NoDup (map fst entries) ->
             forallb (fun f => match dict_get f (collect is_set entries) with
                               | Some v => Spec.is_number v
                               | None => true
                               end) numeric = true).
  { intros numeric entries Hv Hnd. apply forallb_forall. intros f Hin.
    rewrite collect_get by assumption.
    destruct (dict_get f entries) as [v|] eqn:Hg; [|reflexivity].
    destruct (is_set v) eqn:Hset; [|reflexivity].
    apply (Hv f v Hg Hset). apply list_elem_of_In. exact Hin. }
  unfold Spec.well_shaped, _load_from_env.
  cbn [dict_get String.eqb Ascii.eqb Bool.eqb Spec.section_ok].
  rewrite !andb_true_iff. repeat split.
  - apply bool_decide_eq_true. apply collect_wf.
  - apply Hres. intros k Hk. cbn in Hk.
    repeat (apply elem_of_cons in Hk as [->|Hk]; [reflexivity|]).
    apply elem_of_nil in Hk; destruct Hk.
  - apply Hnum; [|apply perplexity_env_wf].
    intros f v Hg Hset Hf.
    repeat (apply elem_of_cons in Hf as [->|Hf];
            [cbn [dict_get perplexity_env String.eqb Ascii.eqb Bool.eqb] in Hg;
             injection Hg as <-;
             unfold of_float, of_int in *;
             repeat case_match; try reflexivity; discriminate|]).
    apply elem_of_nil in Hf; destruct Hf.
  - apply bool_decide_eq_true. apply collect_wf.
  - apply Hres. intros k Hk. cbn in Hk.
    repeat (apply elem_of_cons in Hk as [->|Hk]; [reflexivity|]).
    apply elem_of_nil in Hk; destruct Hk.
  - apply Hnum; [|apply server_env_wf].
    intros f v Hg Hset Hf.
    repeat (apply elem_of_cons in Hf as [->|Hf];
            [cbn [dict_get server_env String.eqb Ascii.eqb Bool.eqb] in Hg;
             injection Hg as <-;
             unfold of_float, of_int in *;
             repeat case_match; try reflexivity; discriminate|]).
    apply elem_of_nil in Hf; destruct Hf.
Qed.

End MergeLemmas.

Section LoadLemmas.
Context `{Runtime}.

(** The merged configuration, field by field. *)
Lemma merge_spec (file_config : value) (env : environ) (cfg : AppConfig) :
  _merge_configs file_config (_load_from_env env) = Ok cfg ->
  Spec.plain_section file_config "perplexity" ->
  Spec.plain_section file_config "server" ->
  (forall f x, dict_get f Spec.perplexity_vars = Some x ->
     attr PerplexitySettings cfg.(perplexity) f
     = Spec.precedence (Spec.env_value env x)
         (Spec.section_value file_config "perplexity" f)
         (Spec.default_of PerplexitySettings f))
  /\ (forall f x, dict_get f Spec.server_vars = Some x ->
        attr ServerSettings cfg.(server) f
        = Spec.precedence (Spec.env_value env x)
            (Spec.section_value file_config "server" f)
            (Spec.default_of ServerSettings f))
  /\ cfg.(proxy) = ProxySettings_new
  /\ cfg.(config_version) = "1.0"
  /\ cfg.(debug)
     = VBool (str_in (lower (getenv_or env "DEBUG" "")) ["true"; "1"; "yes"]).
Proof.
  unfold _merge_configs. intros Hm Hp Hs.
  destruct (apply_source file_config AppConfig_new) as [c1|] eqn:E1;
    [|discriminate].
  cbn [res_bind] in Hm.
  destruct (well_shaped_plain _ (env_well_shaped env)) as [Hep Hes].
  destruct (apply_source_spec _ _ _ E1 Hp Hs) as (Hf1 & Hg1 & Hx1 & Hv1).
  destruct (apply_source_spec _ _ _ Hm Hep Hes) as (Hf2 & Hg2 & Hx2 & Hv2).
  repeat split.
  - intros f x Hf.
    pose proof (perplexity_vars_declared f x Hf) as Hd.
    rewrite (Hf2 f Hd), (Hf1 f Hd).
    change (Spec.section_value (_load_from_env env) "perplexity" f)
      with (dict_get f (collect is_set (perplexity_env env))).
    rewrite (env_perplexity_value env f x Hf). reflexivity.
  - intros f x Hf.
    pose proof (server_vars_declared f x Hf) as Hd.
    rewrite (Hg2 f Hd), (Hg1 f Hd).
    change (Spec.section_value (_load_from_env env) "server" f)
      with (dict_get f (collect is_set (server_env env))).
    rewrite (env_server_value env f x Hf). reflexivity.
  - rewrite Hx2, Hx1. reflexivity.
  - rewrite Hv2, Hv1. reflexivity.
  - apply (apply_source_debug _ _ _ _ Hm). reflexivity.
Qed.

Lemma merge_ok (file_config : value) (env : environ) :
  Spec.well_shaped file_config = true ->
  exists cfg, _merge_configs file_config (_load_from_env env) = Ok cfg.
Proof.
  intros Hok. unfold _merge_configs.
  destruct file_config as [| | | | | |d]; try discriminate.
  destruct (apply_source_ok d AppConfig_new Hok) as [c1 ->]. cbn [res_bind].
  pose proof (env_well_shaped env) as He. unfold _load_from_env in *.
  apply apply_source_ok. exact He.
Qed.

Lemma env_value_number (env : environ) (var : string) (k : Spec.kind) (v : value) :
  k = Spec.KInt \/ k = Spec.KFloat ->
  Spec.env_value env (var, k) = Some v ->
  Spec.is_number v = true.
Proof.
  unfold Spec.env_value. cbn [fst snd].
  destruct (env !! var) as [s|]; [|discriminate].
  destruct (nonempty s); [|discriminate].
  intros [->| ->]; cbn [Spec.read_var].
  - destruct (py_int s); [|discriminate]. intros [= <-]. reflexivity.
  - destruct (py_float s); [|discriminate]. intros [= <-]. reflexivity.
Qed.

Lemma section_ok_number (numeric : list string) (name f : string)
    (d : list (string * value)) (v : value) :
  Spec.section_ok numeric (dict_get name d) = true ->
  f ∈ numeric ->
  Spec.section_value (VDict d) name f = Some v ->
  Spec.is_number v = true.
Proof.
  unfold Spec.section_ok, Spec.section_value.
  destruct (dict_get name d) as [[| | | | | |s]|]; try discriminate.
  intros Hok Hf Hv. apply andb_true_iff in Hok as [_ Hnum].
  rewrite forallb_forall in Hnum.
  apply list_elem_of_In in Hf. apply Hnum in Hf. rewrite Hv in Hf. exact Hf.
Qed.

Lemma precedence_number (e f : option value) (d : value) :
  (forall v, e = Some v -> Spec.is_number v = true) ->
  (forall v, f = Some v -> Spec.is_number v = true) ->
  Spec.is_number d = true ->
  Spec.is_number (Spec.precedence e f d) = true.
Proof.
  intros He Hf Hd. unfold Spec.precedence.
  destruct e as [v|]; [apply He; reflexivity|].
  destruct f as [v|]; [apply Hf; reflexivity|]. exact Hd.
Qed.

Lemma result_report (errors : list string) : result (report errors) = Ok tt.
Proof.
  assert (Hfold : forall l,
             result (fold_right
                       (fun error k => emit (Stdout ("   - " +:+ error)) ;; k)
                       (ret tt) l) = Ok tt).
  { induction l as [|e l IH]; [reflexivity|].
    cbn [fold_right]. rewrite result_bind. exact IH. }
  destruct errors as [|e errors]; [reflexivity|].
  unfold report. rewrite result_bind. apply Hfold.
Qed.

Lemma py_le_number (a b : value) :
  Spec.is_number a = true -> Spec.is_number b = true ->
  exists r, py_le a b = Ok r.
Proof.
  unfold Spec.is_number, py_le.
  destruct (as_num a), (as_num b); try discriminate. eauto.
Qed.

Lemma py_lt_number (a b : value) :
  Spec.is_number a = true -> Spec.is_number b = true ->
  exists r, py_lt a b = Ok r.
Proof.
  unfold Spec.is_number, py_lt.
  destruct (as_num a), (as_num b); try discriminate. eauto.
Qed.

(** Validation returns when the fields it compares are numbers. *)
Lemma validate_ok (cfg : AppConfig) :
  Spec.is_number (attr PerplexitySettings cfg.(perplexity) "timeout") = true ->
  Spec.is_number (attr PerplexitySettings cfg.(perplexity) "max_retries") = true ->
  Spec.is_number (attr ServerSettings cfg.(server) "port") = true ->
  Spec.is_number (attr ServerSettings cfg.(server) "max_request_size") = true ->
  result (_validate_config cfg) = Ok tt.
Proof.
  intros Ht Hr Hp Hs. unfold _validate_config.
  destruct (py_le_number _ (VInt 0) Ht eq_refl) as [b1 ->].
  rewrite bind_lift_ok.
  destruct (py_lt_number _ (VInt 0) Hr eq_refl) as [b2 ->].
  rewrite bind_lift_ok.
  destruct (py_le_number (VInt 1) _ eq_refl Hp) as [b3 ->].
  rewrite bind_lift_ok.
  destruct (py_le_number _ (VInt 65535) Hp eq_refl) as [b4 Hb4].
  destruct (py_le_number _ (VInt 0) Hs eq_refl) as [b5 Hb5].
  destruct b3; [rewrite Hb4, bind_lift_ok | rewrite bind_ret];
    rewrite Hb5, bind_lift_ok; apply result_report.
Qed.

Lemma load_from_file_result (fs : file_read) (v : value) :
  result (_load_from_file fs) = Ok v -> v = Spec.file_config_of fs.
Proof.
  destruct fs as [|e|w|e]; cbn.
  - congruence.
  - destruct e; cbn; congruence.
  - congruence.
  - discriminate.
Qed.

Lemma load_from_file_readable (fs : file_read) :
  Spec.readable fs = true ->
  result (_load_from_file fs) = Ok (Spec.file_config_of fs)
  /\ Spec.well_shaped (Spec.file_config_of fs) = true.
Proof.
  destruct fs as [|e|w|e]; cbn; [auto| |auto|discriminate].
  destruct e; try discriminate; auto.
Qed.

(** What [load_config] returns was merged from the file and the
    environment. *)
Lemma load_config_inv (self self' : ConfigManager) (fs : file_read)
    (env : environ) (cfg : AppConfig) :
  result (load_config self fs env) = Ok (self', cfg) ->
  _merge_configs (Spec.file_config_of fs) (_load_from_env env) = Ok cfg.
Proof.
  unfold load_config. rewrite result_bind.
  destruct (result (_load_from_file fs)) as [v|] eqn:Ev; [|discriminate].
  apply load_from_file_result in Ev as ->.
  rewrite result_bind. cbn [result lift snd].
  destruct (_merge_configs _ _) as [c|]; [|discriminate].
  rewrite result_bind.
  destruct (result (_validate_config c)); [|discriminate].
  cbn. congruence.
Qed.

End LoadLemmas.

Section LoadConfig.
Context `{Runtime}.

Lemma apply_source_keeps (source : value) (c c' : AppConfig) :
  apply_source source c = Ok c' ->
  c'.(proxy) = c.(proxy) /\ c'.(config_version) = c.(config_version).
Proof.
  unfold apply_source. intros Happ.
  destruct (apply_named PerplexitySettings _ _ _); [|discriminate].
  cbn [res_bind set_perplexity server] in Happ.
  destruct (apply_named ServerSettings _ _ _); [|discriminate].
  cbn [res_bind] in Happ.
  destruct (py_contains "debug" source) as [[|]|]; cbn [res_bind] in Happ;
    [| |discriminate].
  - destruct (py_getitem source "debug"); [|discriminate].
    injection Happ as <-. split; reflexivity.
  - injection Happ as <-. split; reflexivity.
Qed.

(** Whatever the file and the environment hold, the proxy settings and the
    version of a loaded configuration are the defaults. *)
Lemma load_config_keeps (self self' : ConfigManager) (fs : file_read)
    (env : environ) (cfg : AppConfig) :
  result (load_config self fs env) = Ok (self', cfg) ->
  cfg.(proxy) = ProxySettings_new /\ cfg.(config_version) = "1.0".
Proof.
  intros Hload. apply load_config_inv in Hload. unfold _merge_configs in Hload.
  destruct (apply_source _ AppConfig_new) as [c1|] eqn:E1; [|discriminate].
  cbn [res_bind] in Hload.
  apply apply_source_keeps in E1 as [Hx1 Hv1].
  apply apply_source_keeps in Hload as [Hx2 Hv2].
  rewrite Hx2, Hx1, Hv2, Hv1. split; reflexivity.
Qed.

(** With a readable file, [load_config] returns. *)
Lemma load_config_ok (self : ConfigManager) (fs : file_read) (env : environ) :
  Spec.readable fs = true ->
  exists cfg,
    result (load_config self fs env)
    = Ok ({| config_file := self.(config_file); _config := Some cfg |}, cfg).
Proof.
  intros Hread.
  destruct (load_from_file_readable fs Hread) as [Hfile Hshape].
  destruct (merge_ok _ env Hshape) as [cfg Hmerge].
  destruct (well_shaped_plain _ Hshape) as [Hpp Hps].
  destruct (merge_spec _ env cfg Hmerge Hpp Hps) as (Hp & Hs & _).
  destruct (Spec.file_config_of fs) as [| | | | | |d] eqn:Efc; try discriminate.
  unfold Spec.well_shaped in Hshape. apply andb_true_iff in Hshape as [Hsp Hss].
  exists cfg. unfold load_config.
  rewrite result_bind, Hfile, result_bind. cbn [result lift snd].
  rewrite Hmerge, result_bind, validate_ok; [reflexivity| | | |].
  - rewrite (Hp "timeout" ("PERPLEXITY_TIMEOUT", Spec.KFloat) eq_refl).
    apply precedence_number; [| |reflexivity].
    + intros v. apply env_value_number. right; reflexivity.
    + intros v. apply (section_ok_number _ _ _ _ _ Hsp). set_solver.
  - rewrite (Hp "max_retries" ("PERPLEXITY_MAX_RETRIES", Spec.KInt) eq_refl).
    apply precedence_number; [| |reflexivity].
    + intros v. apply env_value_number. left; reflexivity.
    + intros v. apply (section_ok_number _ _ _ _ _ Hsp). set_solver.
  - rewrite (Hs "port" ("MCP_PORT", Spec.KInt) eq_refl).
    apply precedence_number; [| |reflexivity].
    + intros v. apply env_value_number. left; reflexivity.
    + intros v. apply (section_ok_number _ _ _ _ _ Hss). set_solver.
  - rewrite (Hs "max_request_size" ("MAX_REQUEST_SIZE", Spec.KInt) eq_refl).
    apply precedence_number; [| |reflexivity].
    + intros v. apply env_value_number. left; reflexivity.
    + intros v. apply (section_ok_number _ _ _ _ _ Hss). set_solver.
Qed.

(** A file that cannot be opened or is not JSON gives what no file gives,
    after a warning. *)
Lemma load_config_degrades (self : ConfigManager) (e : exn) (env : environ) :
  Spec.readable (ReadRaises e) = true ->
  load_config self (ReadRaises e) env
  = (Stdout ("⚠️  警告: 配置文件加载失败: " +:+ str_exn e)
       :: trace (load_config self NoFile env),
     result (load_config self NoFile env)).
Proof.
  intros Hread.
  destruct e; try discriminate Hread;
    exact (bind_cons_trace _ [] (VDict []) _).
Qed.

End LoadConfig.

(** ** load_config *)

Section LoadTheorems.
Context `{Runtime}.

(** C3, as the code has it.  When the test for the file's existence
    returns and the file is missing, or cannot be opened or is not JSON (an
    empty file is not), or holds an object whose [perplexity] and [server]
    sections, if any, are objects without reserved keys and with numbers
    for [timeout], [max_retries], [port] and [max_request_size],
    [load_config] returns a configuration; a file that cannot be opened or
    is not JSON gives, after a printed warning, what a missing file gives. *)
Theorem load_config_returns (self : ConfigManager) (fs : file_read)
    (env : environ) :
  Spec.readable fs = true ->
  (exists cfg,
     result (load_config self fs env)
     = Ok ({| config_file := self.(config_file); _config := Some cfg |}, cfg))
  /\ (forall e, fs = ReadRaises e ->
        load_config self fs env
        = (Stdout ("⚠️  警告: 配置文件加载失败: " +:+ str_exn e)
             :: trace (load_config self NoFile env),
           result (load_config self NoFile env))).
Proof.
  intros Hread. split.
  - apply load_config_ok. exact Hread.
  - intros e ->. apply load_config_degrades. exact Hread.
Qed.

(** The test for the file's existence is before the [try]: what it raises,
    [load_config] raises, and no warning is printed. *)
Lemma load_config_exists_raises (self : ConfigManager) (e : exn)
    (env : environ) :
  load_config self (ExistsRaises e) env = ([], Raise e).
Proof. reflexivity. Qed.

(** C1, as the code has it.  When [load_config] returns, for a file whose
    sections do not rebind [__dict__]: every field of [PerplexitySettings]
    and [ServerSettings] has the value of its environment variable when
    that is set, not empty and - for a number - parses; else the value the
    file gives it; else its default.  [config_version] is always the
    default, and [debug] is the value of [DEBUG] when that is set and not
    empty. *)
Theorem load_config_precedence (self self' : ConfigManager) (fs : file_read)
    (env : environ) (cfg : AppConfig) :
  result (load_config self fs env) = Ok (self', cfg) ->
  Spec.plain_file fs ->
  (forall f x, dict_get f Spec.perplexity_vars = Some x ->
     attr PerplexitySettings cfg.(perplexity) f
     = Spec.precedence (Spec.env_value env x)
         (Spec.file_value fs "perplexity" f)
         (Spec.default_of PerplexitySettings f))
  /\ (forall f x, dict_get f Spec.server_vars = Some x ->
        attr ServerSettings cfg.(server) f
        = Spec.precedence (Spec.env_value env x)
            (Spec.file_value fs "server" f)
            (Spec.default_of ServerSettings f))
  /\ cfg.(config_version) = "1.0"
  /\ (forall s, env !! "DEBUG" = Some s -> s <> "" ->
        cfg.(debug) = VBool (str_in (lower s) ["true"; "1"; "yes"])).
Proof.
  intros Hload Hplain. apply load_config_inv in Hload.
  assert (Hpl : Spec.plain_section (Spec.file_config_of fs) "perplexity"
                /\ Spec.plain_section (Spec.file_config_of fs) "server").
  { destruct fs; [split; exact I | split; exact I | exact Hplain
                 | split; exact I]. }
  assert (Hfv : forall section f,
             Spec.file_value fs section f
             = Spec.section_value (Spec.file_config_of fs) section f).
  { intros section f. destruct fs; reflexivity. }
  destruct Hpl as [Hpp Hps].
  destruct (merge_spec _ env cfg Hload Hpp Hps) as (Hp & Hs & _ & Hv & Hd).
  repeat split.
  - intros f x Hf. rewrite Hfv. apply Hp. exact Hf.
  - intros f x Hf. rewrite Hfv. apply Hs. exact Hf.
  - exact Hv.
  - intros s Hs' _. rewrite Hd. unfold getenv_or. rewrite Hs'. reflexivity.
Qed.

Lemma load_from_env_unparsable (env : environ) (var : string) (k : Spec.kind)
    (s : string) :
  (var, k) ∈ Spec.numeric_vars ->
  env !! var = Some s ->
  Spec.unparsable k s ->
  _load_from_env (delete var env) = _load_from_env env.
Proof.
  intros Hin Henv Hun. unfold Spec.numeric_vars in Hin.
  repeat (apply elem_of_cons in Hin as [[= -> ->]|Hin];
          [unfold _load_from_env, perplexity_env, server_env, proxy_env,
             getenv_either, getenv_or, getenv;
           rewrite ?lookup_delete_eq, ?lookup_delete_ne by done;
           unfold _parse_int, _parse_float; rewrite Henv;
           cbn [Spec.unparsable] in Hun; rewrite Hun;
           destruct (String.eqb s ""); reflexivity|]).
  apply elem_of_nil in Hin; destruct Hin.
Qed.

(** C10.  When a numeric variable holds a string that does not parse,
    [load_config] does what it does without the variable - the same
    result, the same output - and, with a readable file, returns. *)
Theorem unparsable_numeric_ignored (self : ConfigManager) (fs : file_read)
    (env : environ) (var : string) (k : Spec.kind) (s : string) :
  (var, k) ∈ Spec.numeric_vars ->
  env !! var = Some s ->
  Spec.unparsable k s ->
  load_config self fs env = load_config self fs (delete var env)
  /\ (Spec.readable fs = true ->
      exists r, result (load_config self fs env) = Ok r).
Proof.
  intros Hin Henv Hun. split.
  - unfold load_config.
    rewrite (load_from_env_unparsable env var k s Hin Henv Hun). reflexivity.
  - intros Hread. destruct (load_config_ok self fs env Hread) as [cfg Hc].
    eexists. exact Hc.
Qed.

End LoadTheorems.

Lemma load_config_returns_witness :
  let self := Example.manager in
  let fs := Example.empty_file in
  let env := Example.env_model in
  (exists cfg,
     result (@load_config Example.runtime self fs env)
     = Ok ({| config_file := self.(config_file); _config := Some cfg |}, cfg))
  /\ (forall e, fs = ReadRaises e ->
        @load_config Example.runtime self fs env
        = (Stdout ("⚠️  警告: 配置文件加载失败: " +:+ @str_exn Example.runtime e)
             :: trace (@load_config Example.runtime self NoFile env),
           result (@load_config Example.runtime self NoFile env))).
Proof.
  apply (@load_config_returns Example.runtime Example.manager
           Example.empty_file Example.env_model).
  reflexivity.
Defined.

(** C3, as the claim states it, fails: a file that holds the JSON object
    [{"perplexity": {"timeout": "30"}}], or the JSON value [5], makes
    [load_config] raise [TypeError]. *)
Lemma load_config_raises_on_shape :
  result (@load_config Example.runtime Example.manager
            Example.file_timeout_string ∅)
  = Raise TypeError
  /\ result (@load_config Example.runtime Example.manager (Parsed (VInt 5)) ∅)
     = Raise TypeError.
Proof. split; vm_compute; reflexivity. Qed.

Lemma load_config_precedence_witness :
  let self := Example.manager in
  let fs := Example.file_settings in
  let env := Example.env_model in
  let cfg := Example.loaded in
  (forall f x, dict_get f Spec.perplexity_vars = Some x ->
     attr PerplexitySettings cfg.(perplexity) f
     = Spec.precedence (@Spec.env_value Example.runtime env x)
         (Spec.file_value fs "perplexity" f)
         (Spec.default_of PerplexitySettings f))
  /\ (forall f x, dict_get f Spec.server_vars = Some x ->
        attr ServerSettings cfg.(server) f
        = Spec.precedence (@Spec.env_value Example.runtime env x)
            (Spec.file_value fs "server" f)
            (Spec.default_of ServerSettings f))
  /\ cfg.(config_version) = "1.0"
  /\ (forall s, env !! "DEBUG" = Some s -> s <> "" ->
        cfg.(debug) = VBool (str_in (lower s) ["true"; "1"; "yes"])).
Proof.
  apply (@load_config_precedence Example.runtime Example.manager
           {| config_file := "config.json"; _config := Some Example.loaded |}
           Example.file_settings Example.env_model Example.loaded).
  - vm_compute. reflexivity.
  - repeat split; vm_compute; try reflexivity;
      apply (bool_decide_unpack _); vm_compute; exact I.
Defined.

(** The example, field by field: the model from the environment, the
    timeout and the port from the file, the rest by default. *)
Example load_config_example :
  attr PerplexitySettings Example.loaded.(perplexity) "model" = VStr "sonar-reasoning"
  /\ attr PerplexitySettings Example.loaded.(perplexity) "timeout" = VInt 45
  /\ attr PerplexitySettings Example.loaded.(perplexity) "max_retries" = VInt 3
  /\ attr ServerSettings Example.loaded.(server) "port" = VInt 9000
  /\ attr ServerSettings Example.loaded.(server) "host" = VStr "127.0.0.1"
  /\ Example.loaded.(debug) = VBool true.
Proof. repeat split; vm_compute; reflexivity. Qed.

(** C1, as the claim states it, fails.  The file gives [config_version]
    "2.0" and [timeout] 45, and [PERPLEXITY_TIMEOUT] is set to "soon": the
    loaded configuration has the default [config_version] "1.0", not the
    file's, and the file's [timeout], though the variable is set and not
    empty. *)
Lemma load_config_not_by_precedence :
  exists self' cfg,
    result (@load_config Example.runtime Example.manager Example.file_version
              Example.env_timeout_word)
    = Ok (self', cfg)
    /\ Spec.file_config_of Example.file_version
       = VDict [("config_version", VStr "2.0");
                ("perplexity", VDict [("timeout", VInt 45)])]
    /\ cfg.(config_version) = "1.0"
    /\ Example.env_timeout_word !! "PERPLEXITY_TIMEOUT" = Some "soon"
    /\ attr PerplexitySettings cfg.(perplexity) "timeout" = VInt 45.
Proof.
  destruct (@load_config_ok Example.runtime Example.manager Example.file_version
              Example.env_timeout_word eq_refl) as [cfg Hc].
  eexists _, cfg. split; [exact Hc|]. split; [reflexivity|].
  destruct (load_config_keeps _ _ _ _ _ Hc) as [_ Hv].
  split; [exact Hv|]. split; [reflexivity|].
  vm_compute in Hc. injection Hc as <-. vm_compute. reflexivity.
Qed.

Lemma unparsable_numeric_ignored_witness :
  let self := Example.manager in
  let fs := Example.file_settings in
  let env := Example.env_port_word in
  @load_config Example.runtime self fs env
  = @load_config Example.runtime self fs (delete "MCP_PORT" env)
  /\ (Spec.readable fs = true ->
      exists r, result (@load_config Example.runtime self fs env) = Ok r).
Proof.
  apply (@unparsable_numeric_ignored Example.runtime Example.manager
           Example.file_settings Example.env_port_word
           "MCP_PORT" Spec.KInt "eighty").
  - unfold Spec.numeric_vars.
    do 3 apply list_elem_of_further. apply list_elem_of_here.
  - reflexivity.
  - reflexivity.
Defined.

(** C2, on the code.  With [HTTP_PROXY] set, [_load_from_env] reads the
    URL into the [proxy] section of what it returns, [_merge_configs] does
    not look at that section, and the loaded configuration has the empty
    default. *)
Theorem load_config_drops_env_proxy :
  py_getitem (@_load_from_env Example.runtime Example.env_proxy) "proxy"
  = Ok (VDict [("http_proxy", VStr "http://proxy.example.com:8080")])
  /\ exists self' cfg,
       result (@load_config Example.runtime Example.manager NoFile Example.env_proxy)
       = Ok (self', cfg)
       /\ cfg.(proxy).(http_proxy) = ""
       /\ get_httpx_proxy cfg.(proxy) = None.
Proof.
  split; [vm_compute; reflexivity|].
  destruct (@load_config_ok Example.runtime Example.manager NoFile
              Example.env_proxy eq_refl) as [cfg Hc].
  eexists _, cfg. split; [exact Hc|].
  destruct (load_config_keeps _ _ _ _ _ Hc) as [-> _]. split; reflexivity.
Qed.

(** * Further properties of the code *)

(** ** Proxy resolution *)

Lemma get_httpx_proxy_nonempty (self : ProxySettings) (url : string) :
  get_httpx_proxy self = Some url -> nonempty url = true.
Proof.
  rewrite get_httpx_proxy_eq. intros Hurl.
  repeat case_match; inversion Hurl; subst; assumption.
Qed.

(** X1.  The proxy map of [get_proxy_config]: for each of the two schemes, the
    field of that scheme if it is set, else [all_proxy] if that is set, else
    no entry; no other key, and no empty URL. *)
Theorem get_proxy_config_entries (self : ProxySettings) :
  dict_get "http://" (get_proxy_config self)
  = (if nonempty self.(http_proxy) then Some self.(http_proxy)
     else if nonempty self.(all_proxy) then Some self.(all_proxy)
     else None)
  /\ dict_get "https://" (get_proxy_config self)
     = (if nonempty self.(https_proxy) then Some self.(https_proxy)
        else if nonempty self.(all_proxy) then Some self.(all_proxy)
        else None)
  /\ (forall k url, dict_get k (get_proxy_config self) = Some url ->
        (k = "http://" \/ k = "https://") /\ nonempty url = true)
  /\ dict_wf (get_proxy_config self).
Proof.
  unfold get_proxy_config, dict_wf.
  destruct (nonempty (http_proxy self)) eqn:E1,
           (nonempty (https_proxy self)) eqn:E2,
           (nonempty (all_proxy self)) eqn:E3;
    cbn [dict_set dict_get String.eqb Ascii.eqb Bool.eqb map fst];
    (split; [reflexivity|]); (split; [reflexivity|]);
    (split;
     [intros k url Hk;
      repeat match type of Hk with
             | (if String.eqb k ?x then _ else _) = _ =>
                 destruct (String.eqb_spec k x) as [->|_]
             end;
      try discriminate; injection Hk as <-; auto
     |apply (bool_decide_unpack _); vm_compute; exact I]).
Qed.

(** X2.  The single proxy of [get_httpx_proxy] is never the empty string, is
    none exactly when none of [http_proxy], [https_proxy] and [all_proxy] is
    set, and does not depend on [no_proxy]. *)
Theorem get_httpx_proxy_edges (self : ProxySettings) (n : string) :
  (forall url, get_httpx_proxy self = Some url -> url <> "")
  /\ (get_httpx_proxy self = None
      <-> self.(http_proxy) = "" /\ self.(https_proxy) = ""
          /\ self.(all_proxy) = "")
  /\ get_httpx_proxy {| http_proxy := self.(http_proxy);
                        https_proxy := self.(https_proxy);
                        all_proxy := self.(all_proxy);
                        no_proxy := n |}
     = get_httpx_proxy self
  /\ get_proxy_config {| http_proxy := self.(http_proxy);
                         https_proxy := self.(https_proxy);
                         all_proxy := self.(all_proxy);
                         no_proxy := n |}
     = get_proxy_config self.
Proof.
  assert (Hne : forall s, nonempty s = false <-> s = "").
  { intros s. unfold nonempty. destruct (String.eqb_spec s "");
      simpl; split; congruence. }
  split; [|split; [|split; reflexivity]].
  - intros url Hurl ->. apply get_httpx_proxy_nonempty in Hurl. discriminate.
  - rewrite get_httpx_proxy_eq. rewrite <- !Hne.
    destruct (nonempty (https_proxy self)), (nonempty (all_proxy self)),
             (nonempty (http_proxy self)); split; intros; try discriminate;
      repeat split; try reflexivity; intuition discriminate.
Qed.

(** ** create_http_client *)


(** X4.  [validate_proxy_url] does not read the port.  For a proxy URL with
    a scheme and a host whose port raises when read, validation succeeds,
    [get_proxy_info] returns only the error descriptor, and
    [create_http_client] prints the proxy as [None://None:None] and then
    hands the URL to the client constructor as its proxy: it returns the
    client if the constructor accepts the URL and raises what the
    constructor raises if it does not. *)
Theorem proxy_port_not_validated `{Runtime} (config : AppConfig)
    (tr : Transport) (url : string) (parsed : ParseResult) (e : exn) :
  get_httpx_proxy config.(proxy) = Some url ->
  urlparse url = Ok parsed ->
  parsed.(scheme) <> "" ->
  parsed.(netloc) <> "" ->
  parsed.(port) = Raise e ->
  let client := {| client_timeout :=
                     attr PerplexitySettings config.(perplexity) "timeout";
                   client_follow_redirects := true;
                   client_proxy := Some url |} in
  Config.validate_proxy_url url = true
  /\ Config.get_proxy_info url = [("error", "invalid_proxy_url")]
  /\ create_http_client config tr
     = (Stdout "🌐 使用代理配置:"
        :: Stdout "   代理: None://None:None"
        :: match tr.(connect) client with
           | None => [NewClient client]
           | Some _ => []
           end,
        match tr.(connect) client with
        | None => Ok client
        | Some refused => Raise refused
        end).
Proof.
  intros Hurl Hparse Hs Hn Hport client.
  assert (Hne : forall s, s <> "" -> nonempty s = true).
  { intros s Hs'. unfold nonempty.
    destruct (String.eqb_spec s ""); [contradiction|reflexivity]. }
  assert (Hv : Config.validate_proxy_url url = true).
  { unfold Config.validate_proxy_url.
    rewrite Hparse, (Hne _ Hs), (Hne _ Hn). reflexivity. }
  assert (Hi : Config.get_proxy_info url = [("error", "invalid_proxy_url")]).
  { unfold Config.get_proxy_info. rewrite Hparse. cbn [res_bind].
    rewrite Hport. reflexivity. }
  split; [exact Hv|]. split; [exact Hi|].
  unfold create_http_client, validate_proxy_url, get_proxy_info.
  rewrite Hurl, (get_httpx_proxy_nonempty _ _ Hurl), Hv, Hi. cbn [andb].
  subst client. cbn. destruct (connect tr _); reflexivity.
Qed.

Lemma proxy_port_not_validated_witness :
  let config := Cases.config_proxy "http://host:port" in
  let url := "http://host:port" in
  @Config.validate_proxy_url Cases.runtime_port_raises url = true
  /\ @Config.get_proxy_info Cases.runtime_port_raises url
     = [("error", "invalid_proxy_url")]
  /\ @create_http_client Cases.runtime_port_raises config Cases.refusing_proxy
     = ([Stdout "🌐 使用代理配置:"; Stdout "   代理: None://None:None"],
        Raise (OtherError "Invalid port")).
Proof.
  apply (@proxy_port_not_validated Cases.runtime_port_raises
           (Cases.config_proxy "http://host:port") Cases.refusing_proxy
           "http://host:port"
           {| scheme := "http"; netloc := "host:port"; hostname := Some "host";
              port := Raise (ValueError "Port could not be cast to integer value");
              username := None |}
           (ValueError "Port could not be cast to integer value"));
    first [reflexivity | discriminate].
Defined.

(** ** _load_from_env: the proxy variables *)

(** X5.  Each entry of the [proxy] section that [_load_from_env] returns is
    the upper-case variable when that is set and not empty, else the
    lower-case variable when that is set and not empty, else absent. *)
Theorem env_proxy_section `{Runtime} (env : environ) :
  let read upper lower :=
    let s := match env !! upper with
             | Some u => if nonempty u then u else getenv_or env lower ""
             | None => getenv_or env lower ""
             end in
    if nonempty s then Some (VStr s) else None in
  Spec.section_value (_load_from_env env) "proxy" "http_proxy"
  = read "HTTP_PROXY" "http_proxy"
  /\ Spec.section_value (_load_from_env env) "proxy" "https_proxy"
     = read "HTTPS_PROXY" "https_proxy"
  /\ Spec.section_value (_load_from_env env) "proxy" "all_proxy"
     = read "ALL_PROXY" "all_proxy"
  /\ Spec.section_value (_load_from_env env) "proxy" "no_proxy"
     = read "NO_PROXY" "no_proxy".
Proof.
  intros read. subst read. cbv beta zeta.
  unfold _load_from_env, proxy_env, Spec.section_value, getenv_either, getenv.
  cbn [dict_get String.eqb Ascii.eqb Bool.eqb].
  set (a := match env !! "HTTP_PROXY" with Some u => _ | None => _ end).
  set (b := match env !! "HTTPS_PROXY" with Some u => _ | None => _ end).
  set (c := match env !! "ALL_PROXY" with Some u => _ | None => _ end).
  set (d := match env !! "NO_PROXY" with Some u => _ | None => _ end).
  unfold collect. cbn [fold_left fst snd truthy]. unfold nonempty.
  destruct (String.eqb a ""), (String.eqb b ""), (String.eqb c ""),
    (String.eqb d ""); repeat split; reflexivity.
Qed.

(** ** _validate_config *)

(** X6.  [_validate_config] returns for exactly the configurations whose
    [timeout], [max_retries], [port] and [max_request_size] are numbers; for
    every other it raises [TypeError] before it prints anything. *)
Theorem validate_config_type_error (cfg : AppConfig) :
  if Outcome.comparable cfg
  then result (_validate_config cfg) = Ok tt
  else _validate_config cfg = ([], Raise TypeError).
Proof.
  destruct (Outcome.comparable cfg) eqn:Hc.
  - unfold Outcome.comparable in Hc.
    apply andb_prop in Hc as [Hc H4]. apply andb_prop in Hc as [Hc H3].
    apply andb_prop in Hc as [H1 H2]. apply validate_ok; assumption.
  - revert Hc.
    unfold Outcome.comparable, Spec.is_number, _validate_config, py_le, py_lt.
    cbn [as_num].
    destruct (as_num (attr PerplexitySettings (perplexity cfg) "timeout"));
      [rewrite bind_lift_ok|reflexivity].
    destruct (as_num (attr PerplexitySettings (perplexity cfg) "max_retries"));
      [rewrite bind_lift_ok|reflexivity].
    destruct (as_num (attr ServerSettings (server cfg) "port"));
      [rewrite bind_lift_ok|reflexivity].
    destruct (num_le (NInt 1) n1); [rewrite bind_lift_ok|rewrite bind_ret];
      (destruct (as_num (attr ServerSettings (server cfg) "max_request_size"));
       [discriminate|reflexivity]).
Qed.

Lemma SFcompare_refl (s : SpecFloat.spec_float) :
  s <> SpecFloat.S754_nan -> SpecFloat.SFcompare s s = Some Eq.
Proof.
  destruct s as [s|s| |s m e]; intros Hs; try contradiction; cbn.
  - reflexivity.
  - destruct s; reflexivity.
  - rewrite Z.compare_refl, Pos.compare_cont_refl. destruct s; reflexivity.
Qed.

Lemma is_nan_spec (f : float) :
  PrimFloat.is_nan f = true <-> Prim2SF f = SpecFloat.S754_nan.
Proof.
  unfold PrimFloat.is_nan. rewrite FloatAxioms.eqb_spec. unfold SpecFloat.SFeqb.
  split.
  - intros Hn. destruct (Prim2SF f) eqn:E; try reflexivity;
      rewrite SFcompare_refl in Hn by discriminate; discriminate.
  - intros ->. reflexivity.
Qed.

Lemma float_positive (f : float) :
  PrimFloat.is_nan f = false ->
  PrimFloat.ltb 0 f = negb (PrimFloat.leb f 0).
Proof.
  intros Hn. rewrite FloatAxioms.ltb_spec, FloatAxioms.leb_spec.
  change (Prim2SF 0) with (SpecFloat.S754_zero false).
  destruct (Prim2SF f) as [s|s| |s m e] eqn:E; cbn.
  - reflexivity.
  - destruct s; reflexivity.
  - apply is_nan_spec in E. congruence.
  - destruct s; reflexivity.
Qed.

Lemma float_not_negative (f : float) :
  PrimFloat.is_nan f = false ->
  PrimFloat.leb 0 f = negb (PrimFloat.ltb f 0).
Proof.
  intros Hn. rewrite FloatAxioms.ltb_spec, FloatAxioms.leb_spec.
  change (Prim2SF 0) with (SpecFloat.S754_zero false).
  destruct (Prim2SF f) as [s|s| |s m e] eqn:E; cbn.
  - reflexivity.
  - destruct s; reflexivity.
  - apply is_nan_spec in E. congruence.
  - destruct s; reflexivity.
Qed.

Lemma float_nan_le (f g : float) :
  PrimFloat.is_nan f = true -> PrimFloat.leb f g = false.
Proof.
  intros Hn. apply is_nan_spec in Hn. rewrite FloatAxioms.leb_spec, Hn. reflexivity.
Qed.

Lemma num_positive (v : value) (n : num) :
  as_num v = Some n -> Outcome.is_nan v = false ->
  num_lt (NInt 0) n = negb (num_le n (NInt 0)).
Proof.
  destruct v; try discriminate; intros E; injection E as <-; intros Hn;
    cbn [num_lt num_le].
  - apply Z.ltb_antisym.
  - apply Z.ltb_antisym.
  - change (Z_to_float 0) with 0%float. apply float_positive. exact Hn.
Qed.

Lemma num_not_negative (v : value) (n : num) :
  as_num v = Some n -> Outcome.is_nan v = false ->
  num_le (NInt 0) n = negb (num_lt n (NInt 0)).
Proof.
  destruct v; try discriminate; intros E; injection E as <-; intros Hn;
    cbn [num_lt num_le].
  - apply Z.leb_antisym.
  - apply Z.leb_antisym.
  - change (Z_to_float 0) with 0%float. apply float_not_negative. exact Hn.
Qed.

(** X7.  For a configuration whose compared fields are numbers, validation
    prints the warning header and then one line for each check that fails,
    or nothing.  When none of [timeout], [max_retries] and
    [max_request_size] is a NaN it prints nothing exactly when there is a
    key, the timeout is above 0, the retries are not negative, the port is
    from 1 to 65535 and the request size is above 0.  A timeout that is a
    NaN is never warned about: the test is [timeout <= 0]. *)
Theorem validate_config_silent (cfg : AppConfig) :
  Outcome.comparable cfg = true ->
  ((Outcome.is_nan (attr PerplexitySettings cfg.(perplexity) "timeout") = false ->
    Outcome.is_nan (attr PerplexitySettings cfg.(perplexity) "max_retries") = false ->
    Outcome.is_nan (attr ServerSettings cfg.(server) "max_request_size") = false ->
    (Outcome.passes cfg <-> _validate_config cfg = ([], Ok tt)))
   /\ (Outcome.is_nan (attr PerplexitySettings cfg.(perplexity) "timeout") = true ->
       Stdout ("   - " +:+ "超时时间必须大于 0") ∉ trace (_validate_config cfg)))
  /\ (trace (_validate_config cfg) = []
      \/ exists lines,
           trace (_validate_config cfg) = Stdout "⚠️  配置验证警告:" :: lines
           /\ lines <> []
           /\ Forall (fun e => exists error, e = Stdout ("   - " +:+ error)) lines).
Proof.
  unfold Outcome.comparable, Outcome.passes, Spec.is_number, _validate_config,
    py_le, py_lt.
  cbn [as_num].
  destruct (as_num (attr PerplexitySettings (perplexity cfg) "timeout"))
    as [n|] eqn:E1; [|discriminate].
  destruct (as_num (attr PerplexitySettings (perplexity cfg) "max_retries"))
    as [n0|] eqn:E2; [|discriminate].
  destruct (as_num (attr ServerSettings (server cfg) "port"))
    as [n1|] eqn:E3; [|cbn; discriminate].
  destruct (as_num (attr ServerSettings (server cfg) "max_request_size"))
    as [n2|] eqn:E4; [|cbn; discriminate].
  intros _. rewrite !bind_lift_ok.
  assert (Hnan : Outcome.is_nan (attr PerplexitySettings (perplexity cfg) "timeout") = true ->
                 num_le n (NInt 0) = false).
  { destruct (attr PerplexitySettings (perplexity cfg) "timeout");
      try discriminate. injection E1 as <-. intros Hn. cbn [num_le].
    apply float_nan_le. exact Hn. }
  split; [split|].
  - intros Hn1 Hn2 Hn3.
    rewrite (num_positive _ _ E1 Hn1), (num_not_negative _ _ E2 Hn2),
            (num_positive _ _ E4 Hn3).
    clear Hnan.
    destruct (truthy _), (num_le n (NInt 0)), (num_lt n0 (NInt 0)),
      (num_le (NInt 1) n1), (num_le n1 (NInt 65535)), (num_le n2 (NInt 0));
      rewrite ?bind_lift_ok, ?bind_ret; cbn;
      (split; [intros (? & ? & ? & ? & ? & ?); first [reflexivity|congruence]
              |intros E; try discriminate E; repeat split; reflexivity]).
  - intros Hn. rewrite (Hnan Hn). clear Hnan.
    destruct (truthy _), (num_lt n0 (NInt 0)),
      (num_le (NInt 1) n1), (num_le n1 (NInt 65535)), (num_le n2 (NInt 0));
      rewrite ?bind_lift_ok, ?bind_ret; cbn;
      intros Hin;
      repeat (apply elem_of_cons in Hin as [Hin|Hin]; [discriminate Hin|]);
      apply elem_of_nil in Hin; exact Hin.
  - clear Hnan.
    destruct (truthy _), (num_le n (NInt 0)), (num_lt n0 (NInt 0)),
      (num_le (NInt 1) n1), (num_le n1 (NInt 65535)), (num_le n2 (NInt 0));
      rewrite ?bind_lift_ok, ?bind_ret; cbn;
      first [left; reflexivity
            |right; eexists; split; [reflexivity|];
             split; [discriminate
                    |repeat (apply List.Forall_cons;
                             [cbv beta; eexists; reflexivity|]);
                     apply List.Forall_nil]].
Qed.

Lemma validate_config_silent_witness :
  let cfg := Example.config in
  ((Outcome.is_nan (attr PerplexitySettings cfg.(perplexity) "timeout") = false ->
    Outcome.is_nan (attr PerplexitySettings cfg.(perplexity) "max_retries") = false ->
    Outcome.is_nan (attr ServerSettings cfg.(server) "max_request_size") = false ->
    (Outcome.passes cfg <-> _validate_config cfg = ([], Ok tt)))
   /\ (Outcome.is_nan (attr PerplexitySettings cfg.(perplexity) "timeout") = true ->
       Stdout ("   - " +:+ "超时时间必须大于 0") ∉ trace (_validate_config cfg)))
  /\ (trace (_validate_config cfg) = []
      \/ exists lines,
           trace (_validate_config cfg) = Stdout "⚠️  配置验证警告:" :: lines
           /\ lines <> []
           /\ Forall (fun e => exists error, e = Stdout ("   - " +:+ error)) lines).
Proof.
  apply (validate_config_silent Example.config). reflexivity.
Defined.

(** With [PERPLEXITY_TIMEOUT=nan] the timeout is not above 0, and validation
    prints nothing. *)
Example validate_config_nan_timeout :
  py_lt (VInt 0) (attr PerplexitySettings Cases.config_nan.(perplexity) "timeout")
  = Ok false
  /\ _validate_config Cases.config_nan = ([], Ok tt).
Proof. split; vm_compute; reflexivity. Qed.

(** ** load_config, get_config and save_config *)

Lemma load_config_manager `{Runtime} (self self' : ConfigManager)
    (fs : file_read) (env : environ) (cfg : AppConfig) :
  result (load_config self fs env) = Ok (self', cfg) ->
  self' = {| config_file := self.(config_file); _config := Some cfg |}.
Proof.
  unfold load_config.
  destruct (_load_from_file fs) as [t [v|e]]; [|discriminate].
  cbn [Eff.bind].
  destruct (_merge_configs v (_load_from_env env)) as [c|e]; [|discriminate].
  cbn [lift Eff.bind].
  destruct (_validate_config c) as [t' [[]|e]]; [|discriminate].
  cbn. intros E. injection E as <- <-. reflexivity.
Qed.

(** X8.  Whatever the configuration file holds, the configuration
    [load_config] returns has the [debug] flag that the [DEBUG] variable
    gives and the empty proxy settings, so the HTTP client built for it has
    no proxy. *)
Theorem load_config_debug_and_proxy `{Runtime} (self self' : ConfigManager)
    (fs : file_read) (env : environ) (cfg : AppConfig) :
  result (load_config self fs env) = Ok (self', cfg) ->
  cfg.(debug)
  = VBool (str_in (lower (getenv_or env "DEBUG" "")) ["true"; "1"; "yes"])
  /\ cfg.(proxy) = ProxySettings_new
  /\ get_httpx_proxy cfg.(proxy) = None
  /\ (Outcome.client_for cfg).(client_proxy) = None.
Proof.
  intros Hload.
  destruct (load_config_keeps _ _ _ _ _ Hload) as [Hp _].
  split; [|unfold Outcome.client_for; rewrite Hp; repeat split].
  apply load_config_inv in Hload. unfold _merge_configs in Hload.
  destruct (apply_source (Spec.file_config_of fs) AppConfig_new) as [c1|];
    [|discriminate].
  cbn [res_bind] in Hload.
  apply (apply_source_debug _ _ _ _ Hload). reflexivity.
Qed.

Lemma load_config_debug_and_proxy_witness :
  let fs := Parsed (VDict [("debug", VBool true);
                           ("proxy", VDict [("http_proxy", VStr "http://p:1")])]) in
  exists self' cfg,
    result (@load_config Example.runtime Example.manager fs Example.env_proxy)
    = Ok (self', cfg)
    /\ cfg.(debug) = VBool false
    /\ cfg.(proxy) = ProxySettings_new.
Proof.
  intros fs.
  destruct (@load_config_ok Example.runtime Example.manager fs Example.env_proxy
              eq_refl) as [cfg Hc].
  eexists _, cfg. split; [exact Hc|].
  destruct (@load_config_debug_and_proxy Example.runtime _ _ _ _ _ Hc)
    as (Hd & Hp & _).
  split; [exact Hd | exact Hp].
Defined.

(** X9.  [get_config] loads once: after a call that returned, every later
    call returns the same configuration, prints nothing and leaves the
    manager as it is, whatever the file and the environment have become. *)
Theorem get_config_loads_once `{Runtime} (config_manager self' : ConfigManager)
    (fs : file_read) (env : environ) (cfg : AppConfig) :
  result (get_config config_manager fs env) = Ok (self', cfg) ->
  forall fs' env', get_config self' fs' env' = ([], Ok (self', cfg)).
Proof.
  unfold get_config, ConfigManager_get_config.
  destruct (_config config_manager) as [c|] eqn:Hc.
  - cbn. intros E. injection E as <- <-. intros fs' env'. rewrite Hc. reflexivity.
  - intros Hload fs' env'. apply load_config_manager in Hload as ->. reflexivity.
Qed.

Lemma get_config_loads_once_witness :
  exists self' cfg,
    forall fs' env',
      @get_config Example.runtime self' fs' env' = ([], Ok (self', cfg)).
Proof.
  destruct (@load_config_ok Example.runtime Example.manager Example.file_settings
              Example.env_model eq_refl) as [cfg Hc].
  eexists _, cfg.
  apply (@get_config_loads_once Example.runtime Example.manager _
           Example.file_settings Example.env_model cfg).
  exact Hc.
Defined.

(** X10.  [save_config] without an argument saves the manager's current
    configuration: before a load there is none and it raises [ValueError]
    without touching the file system; after a load it saves what was
    loaded, to the path the manager was made with. *)
Theorem save_config_default `{Runtime} (self self' : ConfigManager)
    (fs : file_read) (env : environ) (cfg : AppConfig) (io : save_io) :
  result (load_config self fs env) = Ok (self', cfg) ->
  save_config self None io
  = match self.(_config) with
    | None => ([], Raise (ValueError "没有可保存的配置"))
    | Some before => save_config self (Some before) io
    end
  /\ save_config self' None io = save_config self' (Some cfg) io
  /\ self'.(config_file) = self.(config_file).
Proof.
  intros Hload. apply load_config_manager in Hload as ->.
  split; [|split; reflexivity].
  unfold save_config. destruct (_config self); reflexivity.
Qed.

Lemma save_config_default_witness :
  let self := Example.manager in
  let io := Example.io_ok in
  exists self' cfg,
    save_config self None io
    = match self.(_config) with
      | None => ([], Raise (ValueError "没有可保存的配置"))
      | Some before => save_config self (Some before) io
      end
    /\ save_config self' None io = save_config self' (Some cfg) io
    /\ self'.(config_file) = self.(config_file).
Proof.
  intros self io.
  destruct (@load_config_ok Example.runtime Example.manager Example.file_settings
              Example.env_model eq_refl) as [cfg Hc].
  eexists _, cfg.
  apply (@save_config_default Example.runtime Example.manager _
           Example.file_settings Example.env_model cfg Example.io_ok).
  exact Hc.
Defined.

(** X11.  Round trip.  A configuration whose settings objects have their
    declared fields, with scalar values that JSON text in UTF-8 holds and
    numbers in the compared fields, is saved - when creating the
    directories and writing do not fail - with one complete write of the
    file, and [load_config] reads that content back: every field of the two
    settings objects has the saved value unless its environment variable
    overrides it.  The saved [debug] and [config_version] are not read
    back. *)
Theorem save_load_round_trip `{Runtime} (self other : ConfigManager)
    (config : AppConfig) (env : environ) :
  config.(perplexity) !! "__dataclass_fields__" = None ->
  config.(server) !! "__dataclass_fields__" = None ->
  forallb Spec.scalar (Spec.saved config) = true ->
  forallb Spec.encodable (Spec.saved config) = true ->
  Spec.plain_path self.(config_file) = true ->
  Outcome.comparable config = true ->
  exists content cfg,
    save_config self (Some config)
      {| mkdir_fails := None; write_fails := None |}
    = ([MkdirParents self.(config_file);
        FileWrite self.(config_file) content;
        Stdout ("✅ 配置已保存到: " +:+ self.(config_file))], Ok tt)
    /\ result (load_config other (Parsed content) env)
       = Ok ({| config_file := other.(config_file); _config := Some cfg |}, cfg)
    /\ (forall f x, dict_get f Spec.perplexity_vars = Some x ->
          attr PerplexitySettings cfg.(perplexity) f
          = match Spec.env_value env x with
            | Some v => v
            | None => attr PerplexitySettings config.(perplexity) f
            end)
    /\ (forall f x, dict_get f Spec.server_vars = Some x ->
          attr ServerSettings cfg.(server) f
          = match Spec.env_value env x with
            | Some v => v
            | None => attr ServerSettings config.(server) f
            end)
    /\ cfg.(debug)
       = VBool (str_in (lower (getenv_or env "DEBUG" "")) ["true"; "1"; "yes"])
    /\ cfg.(config_version) = "1.0".
Proof.
  intros Hp Hs Hsc Henc _ Hc.
  unfold Outcome.comparable in Hc.
  apply andb_prop in Hc as [Hc H4]. apply andb_prop in Hc as [Hc H3].
  apply andb_prop in Hc as [H1 H2].
  pose proof (proj2 (proj1 (save_content_raises config Hsc)) Henc) as Hdump.
  set (content := VDict [
    ("perplexity", Spec.fields_of PerplexitySettings config.(perplexity));
    ("server", Spec.fields_of ServerSettings config.(server));
    ("debug", config.(debug));
    ("config_version", VStr config.(config_version))]).
  assert (Hshape : Spec.readable (Parsed content) = true).
  { cbn. rewrite H1, H2, H3, H4. reflexivity. }
  destruct (load_config_ok other (Parsed content) env Hshape) as [cfg Hload].
  exists content, cfg. split; [|split; [exact Hload|]].
  { clear Hload Hshape. subst content.
    unfold save_config, asdict. rewrite Hp, Hs. rewrite !bind_lift_ok.
    cbn [mkdir_fails write_fails]. unfold Spec.fields_of in Hdump |- *.
    rewrite Hdump. reflexivity. }
  pose proof (load_config_inv _ _ _ _ _ Hload) as Hm.
  destruct (well_shaped_plain content Hshape) as [Hpp Hps].
  destruct (merge_spec _ env cfg Hm Hpp Hps) as (Hf & Hg & _ & Hv & Hd).
  split; [|split; [|split; [exact Hd | exact Hv]]].
  - intros f x Hx. rewrite (Hf f x Hx). unfold Spec.precedence.
    destruct (Spec.env_value env x); [reflexivity|].
    cbn [dict_get Spec.perplexity_vars] in Hx.
    literal_key Hx; try reflexivity. discriminate.
  - intros f x Hx. rewrite (Hg f x Hx). unfold Spec.precedence.
    destruct (Spec.env_value env x); [reflexivity|].
    cbn [dict_get Spec.server_vars] in Hx.
    literal_key Hx; try reflexivity. discriminate.
Qed.

Lemma save_load_round_trip_witness :
  let self := Example.manager in
  let config := Example.config in
  let env : environ := {[ "MCP_PORT" := "9000" ]} in
  exists content cfg,
    save_config self (Some config)
      {| mkdir_fails := None; write_fails := None |}
    = ([MkdirParents self.(config_file);
        FileWrite self.(config_file) content;
        Stdout ("✅ 配置已保存到: " +:+ self.(config_file))], Ok tt)
    /\ result (@load_config Example.runtime self (Parsed content) env)
       = Ok ({| config_file := self.(config_file); _config := Some cfg |}, cfg)
    /\ (forall f x, dict_get f Spec.perplexity_vars = Some x ->
          attr PerplexitySettings cfg.(perplexity) f
          = match @Spec.env_value Example.runtime env x with
            | Some v => v
            | None => attr PerplexitySettings config.(perplexity) f
            end)
    /\ (forall f x, dict_get f Spec.server_vars = Some x ->
          attr ServerSettings cfg.(server) f
          = match @Spec.env_value Example.runtime env x with
            | Some v => v
            | None => attr ServerSettings config.(server) f
            end)
    /\ cfg.(debug)
       = VBool (str_in (lower (getenv_or env "DEBUG" "")) ["true"; "1"; "yes"])
    /\ cfg.(config_version) = "1.0".
Proof.
  apply (@save_load_round_trip Example.runtime Example.manager Example.manager
           Example.config {[ "MCP_PORT" := "9000" ]});
    vm_compute; reflexivity.
Defined.

(** X12.  [create_sample_config] never raises: a failed write is printed.
    What it writes to [config.sample.json] has no [proxy] group and is a
    file that [load_config] reads in every environment. *)
Theorem create_sample_config_loadable `{Runtime} (self : ConfigManager) :
  (forall write_fails, result (create_sample_config self write_fails) = Ok tt)
  /\ (forall m, trace (create_sample_config self (Some m))
                = [Stdout ("❌ 示例配置文件创建失败: " +:+ m)])
  /\ exists content,
       trace (create_sample_config self None)
       = [FileWrite "config.sample.json" content;
          Stdout ("✅ 示例配置文件已创建: " +:+ "config.sample.json")]
       /\ py_contains "proxy" content = Ok false
       /\ forall other env, exists cfg,
            result (load_config other (Parsed content) env)
            = Ok ({| config_file := other.(config_file); _config := Some cfg |},
                  cfg).
Proof.
  split; [intros [m|]; reflexivity|].
  split; [intros m; reflexivity|].
  eexists. split; [reflexivity|]. split; [reflexivity|].
  intros other env. apply load_config_ok. reflexivity.
Qed.

(** ** _merge_configs: keys that are no attribute *)

Section UnknownKey.
Variable cls : dataclass.

Lemma apply_item_unknown (o : instance) (k : string) (v : value) :
  hasattr cls o k = false -> apply_item cls o (k, v) = Ok o.
Proof. unfold apply_item. cbn [fst snd]. intros ->. reflexivity. Qed.

Lemma hasattr_unknown (o : instance) (k : string) :
  dict_has k cls.(dc_fields) = false -> str_in k object_attrs = false ->
  o !! k = None -> hasattr cls o k = false.
Proof.
  intros Hf Ha Ho. unfold hasattr. rewrite Hf, Ha, Ho.
  rewrite bool_decide_eq_false_2; [reflexivity|]. intros [x Hx]. discriminate.
Qed.

(** X13.  A key of a section that is neither a field of the settings class
    nor an attribute every object has is skipped: the section gives the
    settings object what it gives without that key. *)
Theorem unknown_key_ignored (k : string) (v : value)
    (before after : list (string * value)) (o : instance) :
  dict_has k cls.(dc_fields) = false ->
  str_in k object_attrs = false ->
  o !! k = None ->
  dict_get "__dict__" before = None ->
  apply_section cls o (VDict (before ++ (k, v) :: after))
  = apply_section cls o (VDict (before ++ after)).
Proof.
  intros Hf Ha. unfold apply_section. cbn [py_items res_bind].
  revert o. induction before as [|[k' v'] before IH]; intros o Ho Hd.
  - cbn [app fold_res].
    rewrite (apply_item_unknown o k v (hasattr_unknown o k Hf Ha Ho)).
    reflexivity.
  - cbn [app fold_res].
    cbn [dict_get] in Hd.
    destruct (String.eqb_spec "__dict__" k') as [Heq|Hk']; [discriminate|].
    destruct (apply_item cls o (k', v')) as [o'|e] eqn:Hitem; [|reflexivity].
    cbn [res_bind]. apply IH; [|exact Hd].
    unfold apply_item in Hitem. cbn [fst snd] in Hitem.
    destruct (hasattr cls o k') eqn:Hh; [|injection Hitem as <-; exact Ho].
    apply setattr_ok_inv in Hitem as ->.
    + destruct (decide (k' = k)) as [->|Hne].
      * rewrite (hasattr_unknown o k Hf Ha Ho) in Hh. discriminate.
      * rewrite lookup_insert_ne by exact Hne. exact Ho.
    + destruct (String.eqb_spec k' "__dict__") as [->|]; [|reflexivity].
      contradiction Hk'. reflexivity.
Qed.

End UnknownKey.

Lemma unknown_key_ignored_witness :
  let o := new PerplexitySettings in
  apply_section PerplexitySettings o
    (VDict ([("model", VStr "sonar-pro")] ++ ("colour", VStr "red")
            :: [("timeout", VInt 45)]))
  = apply_section PerplexitySettings o
      (VDict ([("model", VStr "sonar-pro")] ++ [("timeout", VInt 45)])).
Proof.
  apply (unknown_key_ignored PerplexitySettings "colour" (VStr "red")
           [("model", VStr "sonar-pro")] [("timeout", VInt 45)]
           (new PerplexitySettings)); reflexivity.
Defined.

(** ** search: what it does and how it ends *)

Lemma create_http_client_result `{Runtime} (config : AppConfig) (tr : Transport) :
  result (create_http_client config tr)
  = match tr.(connect) (Outcome.client_for config) with
    | None => Ok (Outcome.client_for config)
    | Some e => Raise e
    end.
Proof.
  unfold create_http_client, Outcome.client_for, validate_proxy_url.
  destruct (get_httpx_proxy (proxy config)) as [url|] eqn:Hurl.
  - rewrite (get_httpx_proxy_nonempty _ _ Hurl). cbn [andb].
    destruct (Config.validate_proxy_url url);
      [destruct (dict_get "auth" (get_proxy_info url))|];
      cbn; destruct (connect tr _); reflexivity.
  - cbn. destruct (connect tr _); reflexivity.
Qed.

Lemma result_after_log {B} (ctx : bool) (m : M unit) (k : unit -> M B) :
  result m = Ok tt -> result (Eff.bind (when ctx m) k) = result (k tt).
Proof.
  intros Hm. rewrite result_bind. destruct ctx; cbn [when]; [rewrite Hm|];
    reflexivity.
Qed.

Lemma result_scoped {A} (c : Client) (m : M A) : result (scoped c m) = result m.
Proof. reflexivity. Qed.

Lemma search_result `{Runtime} (config : AppConfig) (tr : Transport)
    (keyword : string) (model system_message : value) (ctx : bool)
    (used : value) :
  truthy (attr PerplexitySettings config.(perplexity) "api_key") = true ->
  resolve_model config model = Ok used ->
  result (search config tr keyword model system_message ctx)
  = match res_bind (Outcome.exchange config tr
                      (Outcome.request_for config keyword system_message used))
                   (fun data => result (format_response data ctx)) with
    | Ok s => Ok s
    | Raise e => Raise (Outcome.surfaced config e)
    end.
Proof.
  intros Hkey Hmodel. unfold search. cbv zeta.
  rewrite result_after_log by reflexivity.
  rewrite Hkey. cbn [negb]. rewrite Hmodel, bind_lift_ok.
  rewrite result_after_log by reflexivity.
  rewrite result_catch.
  rewrite result_after_log by reflexivity.
  rewrite result_bind, create_http_client_result.
  unfold Outcome.exchange.
  change {| req_url := _; req_headers := _; req_json := _ |}
    with (Outcome.request_for config keyword system_message used).
  set (request := Outcome.request_for config keyword system_message used).
  destruct (connect tr _) as [e|]; cbn [res_bind].
  { destruct e; try (destruct ctx; reflexivity);
      destruct ctx; [cbn; destruct (parse_proxy_config _); reflexivity
                    |reflexivity]. }
  rewrite result_bind, result_scoped, result_bind. cbn [emit result snd].
  rewrite result_bind. cbn [lift result snd].
  destruct (post tr _ request) as [response|e]; cbn [res_bind].
  2: { destruct e; try (destruct ctx; reflexivity);
      destruct ctx; [cbn; destruct (parse_proxy_config _); reflexivity
                    |reflexivity]. }
  destruct (negb _).
  { rewrite result_after_log by reflexivity. destruct ctx; reflexivity. }
  rewrite result_bind. cbn [lift result snd].
  destruct (json response) as [data|e].
  2: { destruct e; try (destruct ctx; reflexivity);
      destruct ctx; [cbn; destruct (parse_proxy_config _); reflexivity
                    |reflexivity]. }
  rewrite result_after_log by reflexivity. cbn [ret lift result snd res_bind].
  destruct (result (format_response data ctx)) as [s|e]; [reflexivity|].
  destruct e; try (destruct ctx; reflexivity);
      destruct ctx; [cbn; destruct (parse_proxy_config _); reflexivity
                    |reflexivity].
Qed.

Lemma resolve_model_raises `{Runtime} (config : AppConfig) (model : value)
    (e : exn) :
  resolve_model config model = Raise e -> e = TypeError \/ e = AttributeError.
Proof.
  unfold resolve_model, add_prefix.
  repeat case_match; intros E; inversion E; auto.
Qed.

Lemma search_result_unresolved `{Runtime} (config : AppConfig) (tr : Transport)
    (keyword : string) (model system_message : value) (ctx : bool) (e : exn) :
  truthy (attr PerplexitySettings config.(perplexity) "api_key") = true ->
  resolve_model config model = Raise e ->
  result (search config tr keyword model system_message ctx) = Raise e.
Proof.
  intros Hkey Hmodel. unfold search. cbv zeta.
  rewrite result_after_log by reflexivity.
  rewrite Hkey. cbn [negb]. rewrite Hmodel. reflexivity.
Qed.

Lemma surfaced_not_transport (config : AppConfig) `{Runtime} (e : exn) :
  match Outcome.surfaced config e with
  | TimeoutException _ | ProxyError _ => False
  | _ => True
  end.
Proof. destruct e; exact I. Qed.
(** X15.  An exception raised while the client is built, the request is
    posted or the body is decoded reaches the caller of [search] as
    [Outcome.surfaced] has it: a [TimeoutException] as a [TimeoutError] that
    names the configured timeout, a [ProxyError] as a [ConnectionError],
    every other exception as it is. *)
Theorem search_surfaces_exceptions `{Runtime} (config : AppConfig)
    (tr : Transport) (keyword : string) (model system_message : value)
    (ctx : bool) (used : value) (e : exn) :
  truthy (attr PerplexitySettings config.(perplexity) "api_key") = true ->
  resolve_model config model = Ok used ->
  Outcome.exchange config tr
    (Outcome.request_for config keyword system_message used) = Raise e ->
  result (search config tr keyword model system_message ctx)
  = Raise (Outcome.surfaced config e).
Proof.
  intros Hkey Hmodel He.
  rewrite (search_result _ _ _ _ _ _ _ Hkey Hmodel), He. reflexivity.
Qed.

Lemma search_surfaces_exceptions_witness :
  result (@search Example.runtime Example.config Cases.timing_out "rust"
            VNone VNone true)
  = Raise (@Outcome.surfaced Example.runtime Example.config
             (TimeoutException "timed out")).
Proof.
  apply (@search_surfaces_exceptions Example.runtime Example.config
           Cases.timing_out "rust" VNone VNone true (VStr "sonar")
           (TimeoutException "timed out")); reflexivity.
Defined.

(** X16.  [search] never raises the client library's [TimeoutException] or
    [ProxyError]. *)
Theorem search_never_raises_transport_errors `{Runtime} (config : AppConfig)
    (tr : Transport) (keyword : string) (model system_message : value)
    (ctx : bool) (e : exn) :
  result (search config tr keyword model system_message ctx) = Raise e ->
  (forall m, e <> TimeoutException m) /\ (forall m, e <> ProxyError m).
Proof.
  intros He.
  destruct (truthy (attr PerplexitySettings config.(perplexity) "api_key"))
    eqn:Hkey.
  - destruct (resolve_model config model) as [used|e'] eqn:Hmodel.
    + rewrite (search_result _ _ _ _ _ _ _ Hkey Hmodel) in He.
      destruct (res_bind _ _) as [s|e0]; [discriminate|].
      injection He as <-. pose proof (surfaced_not_transport config e0) as Hs.
      destruct (Outcome.surfaced config e0); try contradiction;
        split; intros ?; discriminate.
    + rewrite (search_result_unresolved _ _ _ _ _ _ _ Hkey Hmodel) in He.
      injection He as <-.
      destruct (resolve_model_raises _ _ _ Hmodel) as [-> | ->];
        split; intros ?; discriminate.
  - rewrite (search_without_key _ _ _ _ _ _ Hkey) in He.
    injection He as <-. split; intros ?; discriminate.
Qed.

Lemma search_never_raises_transport_errors_witness :
  let e := @Outcome.surfaced Example.runtime Example.config
             (TimeoutException "timed out") in
  (forall m, e <> TimeoutException m) /\ (forall m, e <> ProxyError m).
Proof.
  apply (@search_never_raises_transport_errors Example.runtime Example.config
           Cases.timing_out "rust" VNone VNone false).
  reflexivity.
Defined.

(** X17.  A response whose status is not 200 makes [search] raise
    [HTTPStatusError] with the status and the body text in its message; the
    JSON body is not looked at. *)
Theorem search_error_status `{Runtime} (config : AppConfig) (tr : Transport)
    (keyword : string) (model system_message : value) (ctx : bool)
    (used : value) (response : Response) :
  truthy (attr PerplexitySettings config.(perplexity) "api_key") = true ->
  resolve_model config model = Ok used ->
  tr.(connect) (Outcome.client_for config) = None ->
  tr.(post) (Outcome.client_for config)
            (Outcome.request_for config keyword system_message used)
  = Ok response ->
  response.(status_code) <> 200%Z ->
  result (search config tr keyword model system_message ctx)
  = Raise (HTTPStatusError
             ("Perplexity API 请求失败: " +:+ pretty response.(status_code)
              +:+ " - " +:+ response.(text))
             response.(status_code) response.(text)).
Proof.
  intros Hkey Hmodel Hc Hp Hs.
  rewrite (search_result _ _ _ _ _ _ _ Hkey Hmodel).
  unfold Outcome.exchange. rewrite Hc, Hp. cbn [res_bind].
  destruct (Z.eqb_spec (status_code response) 200); [contradiction|].
  reflexivity.
Qed.

Lemma search_error_status_witness :
  result (@search Example.runtime Example.config
            (Cases.replying 429 "slow down" (Ok VNone)) "rust" VNone VNone true)
  = Raise (HTTPStatusError
             ("Perplexity API 请求失败: " +:+ pretty 429%Z +:+ " - " +:+ "slow down")
             429 "slow down").
Proof.
  apply (@search_error_status Example.runtime Example.config
           (Cases.replying 429 "slow down" (Ok VNone)) "rust" VNone VNone true
           (VStr "sonar")
           {| status_code := 429; text := "slow down"; json := Ok VNone |});
    first [reflexivity | discriminate].
Defined.

(** X18.  A 200 response whose body has no [choices] makes [search] raise
    [ValueError] with the invalid-format message. *)
Theorem search_missing_choices `{Runtime} (config : AppConfig) (tr : Transport)
    (keyword : string) (model system_message : value) (ctx : bool)
    (used data : value) :
  truthy (attr PerplexitySettings config.(perplexity) "api_key") = true ->
  resolve_model config model = Ok used ->
  Outcome.exchange config tr
    (Outcome.request_for config keyword system_message used) = Ok data ->
  py_contains "choices" data = Ok false ->
  result (search config tr keyword model system_message ctx)
  = Raise (ValueError "Perplexity API 响应格式无效：缺少 choices 字段").
Proof.
  intros Hkey Hmodel He Hd.
  rewrite (search_result _ _ _ _ _ _ _ Hkey Hmodel), He. cbn [res_bind].
  unfold format_response. rewrite Hd, bind_lift_ok. cbn [negb].
  rewrite result_after_log by reflexivity. reflexivity.
Qed.

Lemma search_missing_choices_witness :
  result (@search Example.runtime Example.config
            (Example.answering (VDict [("error", VStr "overloaded")]))
            "rust" VNone VNone false)
  = Raise (ValueError "Perplexity API 响应格式无效：缺少 choices 字段").
Proof.
  apply (@search_missing_choices Example.runtime Example.config
           (Example.answering (VDict [("error", VStr "overloaded")]))
           "rust" VNone VNone false (VStr "sonar")
           (VDict [("error", VStr "overloaded")])); reflexivity.
Defined.

Lemma format_response_result_ctx `{Runtime} (data : value) :
  result (format_response data true) = result (format_response data false).
Proof.
  unfold format_response.
  apply result_bind_ext; [reflexivity | intros has].
  destruct (negb has); [reflexivity|].
  apply result_bind_ext; [reflexivity | intros choices].
  destruct (negb _); [reflexivity|].
  apply result_bind_ext; [reflexivity | intros choice_list].
  apply result_bind_ext; [reflexivity | intros content_parts].
  apply result_bind_ext; [reflexivity | intros content].
  apply result_bind_ext; [reflexivity | intros citations].
  apply result_bind_ext; [|reflexivity].
  destruct (truthy citations); [|reflexivity].
  destruct citations; reflexivity.
Qed.
(** X19.  The progress sink does not change how [search] ends: with and
    without [ctx] it returns the same text or raises the same exception. *)
Theorem search_result_ignores_ctx `{Runtime} (config : AppConfig)
    (tr : Transport) (keyword : string) (model system_message : value) :
  result (search config tr keyword model system_message true)
  = result (search config tr keyword model system_message false).
Proof.
  destruct (truthy (attr PerplexitySettings config.(perplexity) "api_key"))
    eqn:Hkey.
  - destruct (resolve_model config model) as [used|e'] eqn:Hmodel.
    + rewrite !(search_result _ _ _ _ _ _ _ Hkey Hmodel).
      destruct (Outcome.exchange _ _ _); [|reflexivity]. cbn [res_bind].
      rewrite format_response_result_ctx. reflexivity.
    + rewrite !(search_result_unresolved _ _ _ _ _ _ _ Hkey Hmodel).
      reflexivity.
  - rewrite !(search_without_key _ _ _ _ _ _ Hkey). reflexivity.
Qed.







